(** * gmail_processor: the attachment discovery and extraction pipeline

    A shallow embedding of [src/gmail_processor/main.py]: the recursive
    part-tree walker [find_mime_parts], the attachment fetcher
    [get_attachment_data], the PDF text extractor [extract_pdf_text] and the
    per-message loop of [main] (section "4. Process Each Message").

    Python values are the JSON values the Gmail API client hands to the code;
    exceptions are explicit results; the log and the dataset are an explicit
    state threaded through the loop. *)

From Stdlib Require Import List String Ascii ZArith NArith Bool Lia.
From Stdlib Require Import DecimalString.
Import ListNotations.

Set Implicit Arguments.

Local Open Scope string_scope.
Local Open Scope list_scope.

(** ** Python strings and bytes *)

(** A Python [str] is its sequence of Unicode code points; [len] is the
    length of that list.  String literals of the source are written as Rocq
    strings and coerced. *)
Definition pystr := list N.

Definition str_of_string (s : string) : pystr :=
  map N_of_ascii (list_ascii_of_string s).

Coercion str_of_string : string >-> pystr.

Fixpoint str_eqb (a b : pystr) : bool :=
  match a, b with
  | [], [] => true
  | x :: a', y :: b' => N.eqb x y && str_eqb a' b'
  | _, _ => false
  end.

(** A Python [bytes] object. *)
Definition bytes := list Byte.byte.

(** [str(n)] for a length. *)
Definition str_of_nat (n : nat) : pystr :=
  str_of_string (NilZero.string_of_uint (Nat.to_uint n)).

(** [str(z)] for an integer. *)
Definition str_of_Z (z : Z) : pystr :=
  str_of_string (NilZero.string_of_int (Z.to_int z)).

(** ** Python values *)

(** The values that reach the code are parsed JSON: [None], booleans,
    integers, strings, lists and dicts with string keys.  A dict keeps its
    insertion order; lookup takes the first entry with the key.  (JSON
    numbers with a fraction are not modelled.) *)
#[local] Unset Elimination Schemes.
Inductive pyval : Type :=
| PNone
| PBool (b : bool)
| PInt (z : Z)
| PStr (s : pystr)
| PList (items : list pyval)
| PDict (entries : list (pystr * pyval)).
#[local] Set Elimination Schemes.

Definition pydict := list (pystr * pyval).

(** Truth value of an object, as tested by [if x], [not x] and [and]. *)
Definition truthy (v : pyval) : bool :=
  match v with
  | PNone => false
  | PBool b => b
  | PInt z => negb (Z.eqb z 0)
  | PStr s => match s with [] => false | _ => true end
  | PList l => match l with [] => false | _ => true end
  | PDict d => match d with [] => false | _ => true end
  end.

(** Exceptions: instances of [Exception].  ([KeyboardInterrupt], [SystemExit]
    and task cancellation derive from [BaseException] only and are outside
    the model, as is the interpreter's recursion limit.) *)
Inductive exn : Type :=
| HttpError (status : Z)
| KeyError (key : pystr)
| TypeError
| AttributeError
| OtherException (name : string).

Inductive result (A : Type) : Type :=
| Ok (a : A)
| Raise (e : exn).

Arguments Ok {A} a.
Arguments Raise {A} e.

Definition rbind {A B} (r : result A) (k : A -> result B) : result B :=
  match r with
  | Ok a => k a
  | Raise e => Raise e
  end.

Declare Scope res_scope.
Delimit Scope res_scope with res.
Notation "x <- r ;; k" := (rbind r (fun x => k))
  (at level 61, r at next level, right associativity) : res_scope.

(** ** Dict operations *)

Fixpoint dict_get (key : pystr) (d : pydict) : option pyval :=
  match d with
  | [] => None
  | (k, v) :: d' => if str_eqb k key then Some v else dict_get key d'
  end.

(** [d.get(key)]: [None] when the key is missing. *)
Definition get_or_none (key : pystr) (d : pydict) : pyval :=
  match dict_get key d with
  | Some v => v
  | None => PNone
  end.

(** [d.get(key, default)]. *)
Definition get_or (key : pystr) (default : pyval) (d : pydict) : pyval :=
  match dict_get key d with
  | Some v => v
  | None => default
  end.

(** [v[key]] with a string key: only a dict can be subscripted so. *)
Definition subscript (v : pyval) (key : pystr) : result pyval :=
  match v with
  | PDict d =>
      match dict_get key d with
      | Some x => Ok x
      | None => Raise (KeyError key)
      end
  | _ => Raise TypeError
  end.

(** ** find_mime_parts (main.py, lines 55-72) *)

(** [x in target_mimes] for a list of strings: only an equal string is a
    member. *)
Definition mime_in (v : pyval) (target_mimes : list pystr) : bool :=
  match v with
  | PStr s => existsb (str_eqb s) target_mimes
  | _ => false
  end.

(** Line 64, for a part that is a dict:
    [part.get('mimeType') in target_mimes and
     part.get('body', {}).get('attachmentId')].
    The right operand is evaluated only when the left one is true; [.get] on
    a body that is not a dict raises [AttributeError]. *)
Definition part_matches (d : pydict) (target_mimes : list pystr) : result bool :=
  if mime_in (get_or_none "mimeType" d) target_mimes then
    match get_or "body" (PDict []) d with
    | PDict body => Ok (truthy (get_or_none "attachmentId" body))
    | _ => Raise AttributeError
    end
  else Ok false.

(** Lines 69-70 for a part with entries [es]: when the key ['parts'] is
    present, [recur] is the recursive call on [part['parts']]; otherwise
    nothing is added. *)
Definition nested_parts (recur : pyval -> result (list pyval))
  : pydict -> result (list pyval) :=
  fix nested (es : pydict) : result (list pyval) :=
    match es with
    | [] => Ok []
    | (k, v) :: es' => if str_eqb k "parts" then recur v else nested es'
    end.

(** Lines 62-72, the [for] loop: [found_parts] is the list the source
    appends to and extends.  A part that is not a dict has no [.get]. *)
Definition walk_parts (recur : pyval -> result (list pyval))
  (target_mimes : list pystr)
  : list pyval -> list pyval -> result (list pyval) :=
  fix loop (items : list pyval) (found_parts : list pyval)
    : result (list pyval) :=
    match items with
    | [] => Ok found_parts
    | part :: rest =>
        match part with
        | PDict d =>
            (q <- part_matches d target_mimes ;;
             let found_parts :=
               if q then found_parts ++ [part] else found_parts in
             sub <- nested_parts recur d ;;
             loop rest (found_parts ++ sub))%res
        | _ => Raise AttributeError
        end
    end.

(** The function itself.  Iterating a non-empty dict or string yields
    strings, which have no [.get]; a number is not iterable. *)
Fixpoint find_mime_parts (parts : pyval) (target_mimes : list pystr)
  {struct parts} : result (list pyval) :=
  if negb (truthy parts) then Ok []
  else
    match parts with
    | PList items =>
        walk_parts (fun v => find_mime_parts v target_mimes) target_mimes
          items []
    | PDict _ | PStr _ => Raise AttributeError
    | _ => Raise TypeError
    end.

(** ** The run: collaborators, log, dataset *)

(** The record pushed to the dataset (lines 188-198). *)
Record output_record : Type := mk_record {
  messageId : pyval;
  subject : pyval;
  date : pyval;
  attachmentName : pyval;
  gmailQueryUsed : pyval;
  targetMimes : list pystr;
  attachmentContentText : pystr
}.

(** What the code calls and does not define: the Gmail client, [base64],
    pdfminer, the dataset, and [str()] of a list or dict.  Each answers as a
    function of its arguments, with a value or an exception. *)
Record collaborators : Type := mk_collaborators {
  (** [service.users().messages().get(userId, id, format='full').execute()] *)
  messages_get : pyval -> result pyval;
  (** [service.users().messages().attachments().get(...).execute()] *)
  attachments_get : pyval -> pyval -> result pyval;
  (** [base64.urlsafe_b64decode(data.encode('UTF-8'))] on a [str] *)
  urlsafe_b64decode : pystr -> result bytes;
  (** the text [extract_text_to_fp] writes for the given bytes *)
  extract_text_to_fp : bytes -> result pystr;
  (** [await Actor.push_data(record)]: accepted, or an exception *)
  push_data : output_record -> result unit;
  (** [str(v)] for a list or a dict *)
  repr_container : pyval -> pystr
}.

Inductive level : Type := INFO | WARNING | ERROR.

(** One constructor per [Actor.log] call of the loop, with the values its
    f-string formats. *)
Inductive log_entry : Type :=
| LogProcessing (msg_count total : nat) (msg_id : pyval)
| LogFoundAttachment (filename mime : pyval)
| LogFetchFailed (att_id : pyval) (error : exn)
| LogExtracted (chars : nat)
| LogPdfFailed (e : exn)
| LogNotConverted (mime : pyval)
| LogPushed (msg_id : pyval)
| LogSkipping (msg_id : pyval)
| LogUnexpected (msg_id : pyval) (e : exn).

(** The method of [Actor.log] each call uses. *)
Definition level_of (l : log_entry) : level :=
  match l with
  | LogProcessing _ _ _ | LogFoundAttachment _ _ | LogExtracted _
  | LogPushed _ => INFO
  | LogPdfFailed _ | LogNotConverted _ | LogSkipping _ => WARNING
  | LogFetchFailed _ _ | LogUnexpected _ _ => ERROR
  end.

Record state : Type := mk_state {
  log : list log_entry;
  dataset : list output_record
}.

Definition empty_state : state := mk_state [] [].

(** Computations of the loop: they read no state, append to the log and the
    dataset, and return a value or raise. *)
Definition M (A : Type) : Type := state -> result A * state.

Definition ret {A} (a : A) : M A := fun st => (Ok a, st).

Definition raise {A} (e : exn) : M A := fun st => (Raise e, st).

Definition bind {A B} (m : M A) (k : A -> M B) : M B :=
  fun st =>
    match m st with
    | (Ok a, st') => k a st'
    | (Raise e, st') => (Raise e, st')
    end.

Definition lift {A} (r : result A) : M A := fun st => (r, st).

Definition log_line (l : log_entry) : M unit :=
  fun st => (Ok tt, mk_state (log st ++ [l]) (dataset st)).

(** [try: body except <class> as e: handler e], where [catches] tells the
    instances of the class. *)
Definition try_except {A} (catches : exn -> bool) (body : M A)
  (handler : exn -> M A) : M A :=
  fun st =>
    match body st with
    | (Ok a, st') => (Ok a, st')
    | (Raise e, st') => if catches e then handler e st' else (Raise e, st')
    end.

Definition is_HttpError (e : exn) : bool :=
  match e with HttpError _ => true | _ => false end.

Definition is_Exception (e : exn) : bool := true.

Declare Scope run_scope.
Delimit Scope run_scope with run.
Notation "x <- m ;; k" := (bind m (fun x => k))
  (at level 61, m at next level, right associativity) : run_scope.
Notation "m ;;; k" := (bind m (fun _ => k))
  (at level 61, right associativity) : run_scope.

(** ** extract_pdf_text (lines 30-37) *)

(** [str.isspace] of one code point, which [str.strip()] removes. *)
Definition is_space (c : N) : bool :=
  ((9 <=? c) && (c <=? 13) || (28 <=? c) && (c <=? 32)
   || (c =? 133) || (c =? 160) || (c =? 5760)
   || (8192 <=? c) && (c <=? 8202)
   || (c =? 8232) || (c =? 8233) || (c =? 8239) || (c =? 8287)
   || (c =? 12288))%N.

Fixpoint lstrip (s : pystr) : pystr :=
  match s with
  | c :: s' => if is_space c then lstrip s' else s
  | [] => []
  end.

Definition strip (s : pystr) : pystr := rev (lstrip (rev (lstrip s))).

Definition extract_pdf_text (c : collaborators) (pdf_bytes : bytes)
  : result pystr :=
  (output_string <- extract_text_to_fp c pdf_bytes ;;
   Ok (strip output_string))%res.

(** ** get_attachment_data (lines 40-53) *)

Definition get_attachment_data (c : collaborators) (msg_id att_id : pyval)
  : M (option bytes) :=
  try_except is_HttpError
    (att <- lift (attachments_get c msg_id att_id) ;;
     match att with
     | PDict d =>
         let data := get_or_none "data" d in
         if truthy data then
           match data with
           | PStr s =>
               (decoded <- lift (urlsafe_b64decode c s) ;;
                ret (Some decoded))
           | _ => raise AttributeError
           end
         else ret None
     | _ => raise AttributeError
     end)%run
    (fun error => log_line (LogFetchFailed att_id error) ;;; ret None)%run.

(** ** The per-message loop of main (lines 134-205) *)

(** [for h in v]: the items of a list, the keys of a dict, the characters of
    a string; nothing else that JSON yields is iterable. *)
Definition py_iter (v : pyval) : result (list pyval) :=
  match v with
  | PList l => Ok l
  | PDict d => Ok (map (fun kv => PStr (fst kv)) d)
  | PStr s => Ok (map (fun ch => PStr [ch]) s)
  | _ => Raise TypeError
  end.

(** A list or a dict cannot be a dict key. *)
Definition hashable (v : pyval) : bool :=
  match v with
  | PList _ | PDict _ => false
  | _ => true
  end.

(** Line 145: [{h['name']: h['value'] for h in ...}], as the pairs in
    the order they are stored.  A later pair with an equal key replaces an
    earlier one, which [headers_get] accounts for. *)
Fixpoint headers_dict (hs : list pyval) : result (list (pyval * pyval)) :=
  match hs with
  | [] => Ok []
  | h :: hs' =>
      (name <- subscript h "name" ;;
       value <- subscript h "value" ;;
       if hashable name
       then (rest <- headers_dict hs' ;; Ok ((name, value) :: rest))
       else Raise TypeError)%res
  end.

(** [headers.get(key, default)] with a string key: the value of the last
    pair stored under that string. *)
Fixpoint headers_get (key : pystr) (default : pyval)
  (headers : list (pyval * pyval)) : pyval :=
  match headers with
  | [] => default
  | (k, v) :: rest =>
      headers_get key
        (match k with
         | PStr s => if str_eqb s key then v else default
         | _ => default
         end) rest
  end.

(** Line 150: [[msg['payload']] if 'parts' not in msg['payload'] else
    msg['payload']['parts']].  The payload is a dict here, line 145 has
    subscripted it with a string. *)
Definition all_parts_of (payload : pyval) : result pyval :=
  match payload with
  | PDict pd =>
      match dict_get "parts" pd with
      | None => Ok (PList [payload])
      | Some ps => Ok ps
      end
  | _ => Raise TypeError
  end.

(** Truth value of [attachment_bytes], which is [None] or a [bytes]. *)
Definition bytes_truthy (b : option bytes) : bool :=
  match b with
  | Some (_ :: _) => true
  | _ => false
  end.

Definition the_bytes (b : option bytes) : bytes :=
  match b with
  | Some x => x
  | None => []
  end.

(** Truth value of [attachment_content_text], which is [None] or a [str]. *)
Definition text_truthy (t : option pystr) : bool :=
  match t with
  | Some (_ :: _) => true
  | _ => false
  end.

Definition the_text (t : option pystr) : pystr :=
  match t with
  | Some x => x
  | None => []
  end.

(** [part.get('mimeType') == 'application/pdf'] *)
Definition is_pdf (mime : pyval) : bool :=
  match mime with
  | PStr s => str_eqb s "application/pdf"
  | _ => false
  end.

Section Loop.

Variable c : collaborators.
Variable gmail_query : pyval.
Variable target_mimes : list pystr.

(** What an f-string puts for [{v}]. *)
Definition format_value (v : pyval) : pystr :=
  match v with
  | PNone => str_of_string "None"
  | PBool true => str_of_string "True"
  | PBool false => str_of_string "False"
  | PInt z => str_of_Z z
  | PStr s => s
  | PList _ | PDict _ => repr_container c v
  end.

(** Line 182. *)
Definition placeholder (filename : pyval) (attachment_bytes : bytes)
  : pystr :=
  str_of_string "Binary content of " ++ format_value filename
  ++ str_of_string " was not processed to text. Size: "
  ++ str_of_nat (List.length attachment_bytes) ++ str_of_string " bytes.".

(** Lines 153-183: the values of [attachment_filename] and
    [attachment_content_text] when line 186 is reached. *)
Definition extract_attachment (msg_id : pyval)
  (target_attachments : list pyval) : M (pyval * option pystr) :=
  match target_attachments with
  | [] => ret (PNone, None)
  | part :: _ =>
      match part with
      | PDict d =>
          let filename := get_or "filename" (PStr "untitled_attachment") d in
          (body <- lift (subscript part "body") ;;
           att_id <- lift (subscript body "attachmentId") ;;
           log_line (LogFoundAttachment filename (get_or_none "mimeType" d)) ;;;
           attachment_bytes <- get_attachment_data c msg_id att_id ;;
           if bytes_truthy attachment_bytes
              && is_pdf (get_or_none "mimeType" d)
           then
             try_except is_Exception
               (text <- lift (extract_pdf_text c (the_bytes attachment_bytes)) ;;
                log_line (LogExtracted (List.length text)) ;;;
                ret (filename, Some text))
               (fun e => log_line (LogPdfFailed e) ;;; ret (PNone, None))
           else if bytes_truthy attachment_bytes
           then
             log_line (LogNotConverted (get_or_none "mimeType" d)) ;;;
             ret (filename,
                  Some (placeholder filename (the_bytes attachment_bytes)))
           else ret (PNone, None))%run
      | _ => raise AttributeError
      end
  end.

(** Lines 140-151: the message is fetched, its headers read and its part
    tree searched.  The result is [(subject, date, target_attachments)];
    nothing is logged on the way. *)
Definition read_message (msg_id : pyval)
  : result (pyval * pyval * list pyval) :=
  (msg <- messages_get c msg_id ;;
   payload <- subscript msg "payload" ;;
   hs <- subscript payload "headers" ;;
   items <- py_iter hs ;;
   headers <- headers_dict items ;;
   let subject := headers_get "Subject" (PStr "No Subject") headers in
   let date := headers_get "Date" (PStr "No Date") headers in
   all_parts <- all_parts_of payload ;;
   target_attachments <- find_mime_parts all_parts target_mimes ;;
   Ok (subject, date, target_attachments))%res.

(** Lines 139-183, the extraction step: the result is
    [(subject, date, (attachment_filename, attachment_content_text))]. *)
Definition extract_stage (msg_id : pyval)
  : M (pyval * pyval * (pyval * option pystr)) :=
  (found <- lift (read_message msg_id) ;;
   let '(subject, date, target_attachments) := found in
   extracted <- extract_attachment msg_id target_attachments ;;
   ret (subject, date, extracted))%run.

(** [await Actor.push_data(record)]: the dataset takes the record unless
    the call raises. *)
Definition push (r : output_record) : M unit :=
  fun st =>
    match push_data c r with
    | Ok _ => (Ok tt, mk_state (log st) (dataset st ++ [r]))
    | Raise e => (Raise e, st)
    end.

(** Lines 186-202. *)
Definition store_result (msg_id : pyval)
  (x : pyval * pyval * (pyval * option pystr)) : M unit :=
  let '(subject, date, (attachment_filename, attachment_content_text)) := x in
  if text_truthy attachment_content_text then
    (push (mk_record msg_id subject date attachment_filename gmail_query
             target_mimes (the_text attachment_content_text)) ;;;
     log_line (LogPushed msg_id))%run
  else log_line (LogSkipping msg_id).

(** Lines 139-202, the body of the [try]. *)
Definition message_body (msg_id : pyval) : M unit :=
  (x <- extract_stage msg_id ;; store_result msg_id x)%run.

(** Lines 135-205, one iteration of the [for]. *)
Definition process_message (msg_count total : nat) (message : pyval)
  : M unit :=
  (msg_id <- lift (subscript message "id") ;;
   log_line (LogProcessing msg_count total msg_id) ;;;
   try_except is_Exception (message_body msg_id)
     (fun e => log_line (LogUnexpected msg_id e)))%run.

(** [for msg_count, message in enumerate(messages, msg_count)] *)
Fixpoint process_from (total msg_count : nat) (messages : list pyval)
  : M unit :=
  match messages with
  | [] => ret tt
  | message :: rest =>
      (process_message msg_count total message ;;;
       process_from total (S msg_count) rest)%run
  end.

(** Line 134: [for msg_count, message in enumerate(messages, 1)]. *)
Definition process_messages (messages : list pyval) : M unit :=
  process_from (List.length messages) 1 messages.

End Loop.

(** ** The start of main (lines 79-130) *)

(** Line 24: the default query, with its two double quotes. *)
Definition DEFAULT_GMAIL_QUERY : pystr :=
  str_of_string "subject:" ++ [34%N]
  ++ str_of_string "Rate Confirmation for order #" ++ [34%N]
  ++ str_of_string " has:attachment from:@scotlynn.com".

(** Line 25. *)
Definition DEFAULT_MIME_TYPES : pyval := PList [PStr "application/pdf"].

(** What the start of [main] calls: the actor input, the loading of the
    credentials ([json.loads] and [Credentials.from_authorized_user_info]),
    the construction of the Gmail service, and the search. *)
Record startup : Type := mk_startup {
  (** [await Actor.get_input()] *)
  get_input : pyval;
  (** lines 100-101, on the credentials string *)
  load_credentials : pyval -> result unit;
  (** line 108, for these credentials *)
  build : pyval -> result unit;
  (** lines 117-120, for these credentials and this query *)
  messages_list : pyval -> pyval -> result pyval
}.

(** One constructor per [Actor.log] call of lines 79-129. *)
Inductive startup_line : Type :=
| ActorStarted
| MissingCredentials
| UsingQuery (gmail_query : pyval)
| TargetingMimes (joined : pystr)
| CredentialsError (e : exn)
| ServiceReady
| BuildFailed (e : exn)
| SearchFailed (error : exn)
| FoundEmails (n : nat)
| NoMatchingEmails.

(** How the start ends: [main] returns, or the loop is entered with the
    query, the allow-list and the candidates. *)
Inductive start_outcome : Type :=
| Return
| EnterLoop (gmail_query target_mimes messages : pyval).

Fixpoint intercalate (sep : pystr) (items : list pystr) : pystr :=
  match items with
  | [] => []
  | [s] => s
  | s :: rest => s ++ sep ++ intercalate sep rest
  end.

(** The strings of a list of values, when all of them are strings. *)
Fixpoint all_strings (items : list pyval) : option (list pystr) :=
  match items with
  | [] => Some []
  | PStr s :: rest =>
      match all_strings rest with
      | Some l => Some (s :: l)
      | None => None
      end
  | _ :: _ => None
  end.

(** [sep.join(v)]: [v] must be iterable and yield strings only. *)
Definition py_join (sep : pystr) (v : pyval) : result pystr :=
  match py_iter v with
  | Ok items =>
      match all_strings items with
      | Some l => Ok (intercalate sep l)
      | None => Raise TypeError
      end
  | Raise e => Raise e
  end.

(** [len(v)] *)
Definition py_len (v : pyval) : result nat :=
  match v with
  | PList l => Ok (List.length l)
  | PDict d => Ok (List.length d)
  | PStr s => Ok (List.length s)
  | _ => Raise TypeError
  end.

(** Lines 79-130: the lines logged, and how the start ends or what escapes
    from it. *)
Definition start (s : startup) : list startup_line * result start_outcome :=
  let actor_input :=
    if truthy (get_input s) then get_input s else PDict [] in
  match actor_input with
  | PDict d =>
      let creds_json_str := get_or_none "gmail_credentials.json" d in
      if negb (truthy creds_json_str) then
        ([ActorStarted; MissingCredentials], Ok Return)
      else
        let gmail_query := get_or "gmailQuery" (PStr DEFAULT_GMAIL_QUERY) d in
        let target_mimes :=
          get_or "attachmentMimeTypes" DEFAULT_MIME_TYPES d in
        match py_join ", " target_mimes with
        | Raise e => ([ActorStarted; UsingQuery gmail_query], Raise e)
        | Ok joined =>
            let l :=
              [ActorStarted; UsingQuery gmail_query; TargetingMimes joined] in
            match load_credentials s creds_json_str with
            | Raise e => (l ++ [CredentialsError e], Ok Return)
            | Ok _ =>
                match build s creds_json_str with
                | Raise e => (l ++ [BuildFailed e], Ok Return)
                | Ok _ =>
                    let l := l ++ [ServiceReady] in
                    match messages_list s creds_json_str gmail_query with
                    | Raise e =>
                        if is_HttpError e
                        then (l ++ [SearchFailed e], Ok Return)
                        else (l, Raise e)
                    | Ok (PDict response) =>
                        let messages :=
                          get_or "messages" (PList []) response in
                        match py_len messages with
                        | Raise e => (l, Raise e)
                        | Ok n =>
                            if negb (truthy messages) then
                              (l ++ [FoundEmails n; NoMatchingEmails],
                               Ok Return)
                            else
                              (l ++ [FoundEmails n],
                               Ok (EnterLoop gmail_query target_mimes
                                     messages))
                        end
                    | Ok _ => (l, Raise AttributeError)
                    end
                end
            end
        end
  | _ => ([ActorStarted], Raise AttributeError)
  end.

(** ** Specification of the part tree walker *)

(** The parts of a tree in depth-first pre-order: a part, then the trees of
    the items of its ['parts'] list, in the given order. *)
Fixpoint preorder (part : pyval) : list pyval :=
  part ::
  match part with
  | PDict d =>
      (fix children (es : pydict) : list pyval :=
         match es with
         | [] => []
         | (k, v) :: es' =>
             if str_eqb k "parts" then
               match v with
               | PList items => flat_map preorder items
               | _ => []
               end
             else children es'
         end) d
  | _ => []
  end.

(** The children of a part: the items of its ['parts'] list. *)
Definition children (part : pyval) : list pyval :=
  match part with
  | PDict d =>
      match dict_get "parts" d with
      | Some (PList items) => items
      | _ => []
      end
  | _ => []
  end.

(** The media type of the part is in the allow-list. *)
Definition mime_allowed (target_mimes : list pystr) (part : pyval) : bool :=
  match part with
  | PDict d => mime_in (get_or_none "mimeType" d) target_mimes
  | _ => false
  end.

(** The part's body carries a non-empty attachment reference: an
    ['attachmentId'] that Python takes for true (for a string: not [""]). *)
Definition has_attachment_id (part : pyval) : bool :=
  match part with
  | PDict d =>
      match dict_get "body" d with
      | Some (PDict body) => truthy (get_or_none "attachmentId" body)
      | _ => false
      end
  | _ => false
  end.

Definition qualifies (target_mimes : list pystr) (part : pyval) : bool :=
  mime_allowed target_mimes part && has_attachment_id part.

(** Line 64 held for the part: it is a dict and the test returned true. *)
Definition matched (target_mimes : list pystr) (part : pyval) : Prop :=
  exists d, part = PDict d /\ part_matches d target_mimes = Ok true.

(** The attachment reference line 160 reads: [part['body']['attachmentId']]. *)
Definition attachment_id_of (part : pyval) : result pyval :=
  (body <- subscript part "body" ;; subscript body "attachmentId")%res.

(** A part as the Gmail API documents it: a dict whose ['body'], when
    present, is a dict, and whose ['parts'], when present, is empty
    ([None], [[]], ...) or a list of such parts. *)
Fixpoint well_formed_part (part : pyval) : bool :=
  match part with
  | PDict d =>
      match get_or "body" (PDict []) d with
      | PDict _ => true
      | _ => false
      end
      && (fix sub (es : pydict) : bool :=
            match es with
            | [] => true
            | (k, v) :: es' =>
                if str_eqb k "parts" then
                  negb (truthy v)
                  || match v with
                     | PList items => forallb well_formed_part items
                     | _ => false
                     end
                else sub es'
            end) d
  | _ => false
  end.

(** The items a value of ['parts'] stands for. *)
Definition items_of (parts : pyval) : list pyval :=
  match parts with
  | PList items => items
  | _ => []
  end.

(** A value of ['parts'] (or the top-level argument): empty, or a list of
    well-formed parts. *)
Definition well_formed_parts (parts : pyval) : bool :=
  negb (truthy parts)
  || match parts with
     | PList items => forallb well_formed_part items
     | _ => false
     end.

(** Induction on values, with the hypothesis for every item of a list and
    every value of a dict. *)
Fixpoint pyval_ind (P : pyval -> Prop)
  (HNone : P PNone) (HBool : forall b, P (PBool b))
  (HInt : forall z, P (PInt z)) (HStr : forall s, P (PStr s))
  (HList : forall items, Forall P items -> P (PList items))
  (HDict : forall es, Forall (fun kv => P (snd kv)) es -> P (PDict es))
  (v : pyval) {struct v} : P v :=
  match v with
  | PNone => HNone
  | PBool b => HBool b
  | PInt z => HInt z
  | PStr s => HStr s
  | PList items =>
      HList items
        ((fix all (l : list pyval) : Forall P l :=
            match l with
            | [] => Forall_nil P
            | x :: l' =>
                Forall_cons x
                  (pyval_ind HNone HBool HInt HStr HList HDict x) (all l')
            end) items)
  | PDict es =>
      HDict es
        ((fix all (l : pydict) : Forall (fun kv => P (snd kv)) l :=
            match l with
            | [] => Forall_nil _
            | kv :: l' =>
                Forall_cons kv
                  (pyval_ind HNone HBool HInt HStr HList HDict (snd kv))
                  (all l')
            end) es)
  end.

(** ** Specification of the run *)

(** A computation that only appends: its result, the lines it logs and the
    records it pushes are the same from every state. *)
Definition framed {A} (m : M A) : Prop :=
  exists r l d,
    forall st, m st = (r, mk_state (log st ++ l) (dataset st ++ d)).

(** A computation that pushes nothing. *)
Definition logs_only {A} (m : M A) : Prop :=
  exists r l, forall st, m st = (r, mk_state (log st ++ l) (dataset st)).

(** The state with more lines logged. *)
Definition add_log (st : state) (l : list log_entry) : state :=
  mk_state (log st ++ l) (dataset st).

(** What a fetch returns or raises, and what it logs. *)
Definition fetched (c : collaborators) (msg_id att_id : pyval)
  : result (option bytes) :=
  fst (get_attachment_data c msg_id att_id empty_state).

Definition fetch_log (c : collaborators) (msg_id att_id : pyval)
  : list log_entry :=
  log (snd (get_attachment_data c msg_id att_id empty_state)).

(** Line 159. *)
Definition filename_of (d : pydict) : pyval :=
  get_or "filename" (PStr "untitled_attachment") d.

(** What lines 156-183 give for a message whose first discovered
    attachment is [part]: the values of [attachment_filename] and
    [attachment_content_text]. *)
Definition extract_first (c : collaborators) (msg_id part : pyval)
  : result (pyval * option pystr) :=
  fst (extract_attachment c msg_id [part] empty_state).

(** The collaborators with another attachment service. *)
Definition with_attachments (c : collaborators)
  (g : pyval -> pyval -> result pyval) : collaborators :=
  mk_collaborators (messages_get c) g (urlsafe_b64decode c)
    (extract_text_to_fp c) (push_data c) (repr_container c).

(** The candidate carries an identifier: line 135 succeeds on it. *)
Definition has_id (message : pyval) : Prop :=
  exists msg_id, subscript message "id" = Ok msg_id.

Section RunSpec.

Variable c : collaborators.
Variable gmail_query : pyval.
Variable target_mimes : list pystr.

(** The records one message puts into the dataset, processed on its own. *)
Definition message_records (message : pyval) : list output_record :=
  dataset (snd (process_message c gmail_query target_mimes 1 1 message
                  empty_state)).

(** The lines one message logs, processed on its own as number
    [msg_count] of [total]. *)
Definition message_log (msg_count total : nat) (message : pyval)
  : list log_entry :=
  log (snd (process_message c gmail_query target_mimes msg_count total
              message empty_state)).

(** The log segments of the candidates, one after the other. *)
Fixpoint run_log (total msg_count : nat) (messages : list pyval)
  : list log_entry :=
  match messages with
  | [] => []
  | message :: rest =>
      message_log msg_count total message
      ++ run_log total (S msg_count) rest
  end.

(** What the extraction step (lines 139-183) of a message returns. *)
Definition extraction (msg_id : pyval)
  : result (pyval * pyval * (pyval * option pystr)) :=
  fst (extract_stage c target_mimes msg_id empty_state).

(** The record line 188 builds from an extraction result. *)
Definition record_of (msg_id : pyval)
  (x : pyval * pyval * (pyval * option pystr)) : output_record :=
  let '(subject, date, (attachment_filename, attachment_content_text)) := x in
  mk_record msg_id subject date attachment_filename gmail_query
    target_mimes (the_text attachment_content_text).

(** The records the dataset takes for a message, by its extraction
    result: one when the text is true and the push is accepted. *)
Definition emitted (msg_id : pyval) : list output_record :=
  match extraction msg_id with
  | Ok x =>
      if text_truthy (snd (snd x)) then
        match push_data c (record_of msg_id x) with
        | Ok _ => [record_of msg_id x]
        | Raise _ => []
        end
      else []
  | Raise _ => []
  end.

(** Lines 186-205 after the extraction step returned [x] in state [st]. *)
Definition finish (msg_id : pyval)
  (x : pyval * pyval * (pyval * option pystr)) (st : state)
  : result unit * state :=
  match store_result c gmail_query target_mimes msg_id x st with
  | (Ok _, st1) => (Ok tt, st1)
  | (Raise e, st1) => (Ok tt, add_log st1 [LogUnexpected msg_id e])
  end.

End RunSpec.

(** The [try] body of the message raises [e]. *)
Definition body_raises (c : collaborators) (gmail_query : pyval)
  (target_mimes : list pystr) (msg_id : pyval) (e : exn) : Prop :=
  fst (message_body c gmail_query target_mimes msg_id empty_state) = Raise e.

(** The ways the processing of a message fails, each with the line that
    records it: an exception of the [try] body, caught at line 204; an
    [HttpError] of the attachment fetch, caught at line 51; an exception of
    the PDF text extraction, caught at line 172. *)
Inductive message_failure (c : collaborators) (gmail_query : pyval)
  (target_mimes : list pystr) (msg_id : pyval) : log_entry -> Prop :=
| unexpected_exception e :
    body_raises c gmail_query target_mimes msg_id e ->
    message_failure c gmail_query target_mimes msg_id
      (LogUnexpected msg_id e)
| fetch_http_error s d pd others att_id status :
    read_message c target_mimes msg_id = Ok (s, d, PDict pd :: others) ->
    attachment_id_of (PDict pd) = Ok att_id ->
    attachments_get c msg_id att_id = Raise (HttpError status) ->
    message_failure c gmail_query target_mimes msg_id
      (LogFetchFailed att_id (HttpError status))
| pdf_extraction_error s d pd others att_id payload e :
    read_message c target_mimes msg_id = Ok (s, d, PDict pd :: others) ->
    attachment_id_of (PDict pd) = Ok att_id ->
    fetched c msg_id att_id = Ok (Some payload) ->
    payload <> [] ->
    is_pdf (get_or_none "mimeType" pd) = true ->
    extract_text_to_fp c payload = Raise e ->
    message_failure c gmail_query target_mimes msg_id (LogPdfFailed e).

(** The last line a message logs: pushed, skipped, or dropped on an error. *)
Definition terminal (msg_id : pyval) (l : log_entry) : Prop :=
  l = LogPushed msg_id \/ l = LogSkipping msg_id
  \/ exists e, l = LogUnexpected msg_id e.

(** ** Specification of trimming *)

(** The string begins, or ends, with a white-space character. *)
Definition starts_with_space (s : pystr) : bool :=
  match s with
  | ch :: _ => is_space ch
  | [] => false
  end.

Definition ends_with_space (s : pystr) : bool := starts_with_space (rev s).

(** ** A sample mailbox *)

(** Three messages in the shape the Gmail API returns them, and
    collaborators that serve them. *)
Module Sample.

Definition pdf : pystr := str_of_string "application/pdf".
Definition docx : pystr := str_of_string "application/msword".

Definition header (name value : string) : pyval :=
  PDict [(str_of_string "name", PStr name);
         (str_of_string "value", PStr value)].

Definition attachment (mime : pystr) (filename att_id : string) : pyval :=
  PDict [(str_of_string "mimeType", PStr mime);
         (str_of_string "filename", PStr filename);
         (str_of_string "body",
          PDict [(str_of_string "attachmentId", PStr att_id);
                 (str_of_string "size", PInt 4)])].

(** A text body: no attachment reference. *)
Definition text_part : pyval :=
  PDict [(str_of_string "mimeType", PStr "text/plain");
         (str_of_string "filename", PStr "");
         (str_of_string "body",
          PDict [(str_of_string "size", PInt 12);
                 (str_of_string "data", PStr "aGVsbG8=")])].

(** A PDF shown inline: the media type matches, the body has no
    attachment reference. *)
Definition inline_pdf : pyval :=
  PDict [(str_of_string "mimeType", PStr pdf);
         (str_of_string "body", PDict [(str_of_string "size", PInt 9)])].

(** A PDF attachment that itself has a nested PDF attachment. *)
Definition outer_pdf : pyval :=
  PDict [(str_of_string "mimeType", PStr pdf);
         (str_of_string "filename", PStr "rate.pdf");
         (str_of_string "body",
          PDict [(str_of_string "attachmentId", PStr "att-1")]);
         (str_of_string "parts",
          PList [text_part; attachment pdf "inner.pdf" "att-2"])].

Definition multipart (parts : list pyval) : pyval :=
  PDict [(str_of_string "mimeType", PStr "multipart/mixed");
         (str_of_string "body", PDict [(str_of_string "size", PInt 0)]);
         (str_of_string "parts", PList parts)].

Definition nested_parts_list : list pyval :=
  [text_part; multipart [inline_pdf; outer_pdf];
   attachment pdf "last.pdf" "att-3"].

(** A PDF attachment whose part has no ['filename'] at all. *)
Definition unnamed (mime : pystr) (att_id : string) : pyval :=
  PDict [(str_of_string "mimeType", PStr mime);
         (str_of_string "body",
          PDict [(str_of_string "attachmentId", PStr att_id)])].

Definition message_with (subject : string) (parts : list pyval) : pyval :=
  PDict [(str_of_string "id", PStr "ignored");
         (str_of_string "payload",
          PDict [(str_of_string "mimeType", PStr "multipart/mixed");
                 (str_of_string "headers",
                  PList [header "From" "dispatch@scotlynn.com";
                         header "Subject" subject]);
                 (str_of_string "parts", PList parts)])].

(** An entry of the candidate list, as [messages.list] returns it. *)
Definition candidate (id : string) : pyval :=
  PDict [(str_of_string "id", PStr id);
         (str_of_string "threadId", PStr id)].

Fixpoint lookup {A} (key : pystr) (table : list (string * A)) : option A :=
  match table with
  | [] => None
  | (k, a) :: rest => if str_eqb key k then Some a else lookup key rest
  end.

Definition mailbox : list (string * pyval) :=
  [("m1", message_with "Rate Confirmation for order #1"
            [text_part; attachment pdf "rate.pdf" "att-1"]);
   ("m2", message_with "Reminder" [text_part; inline_pdf]);
   ("m3", message_with "Rate Confirmation for order #3"
            [attachment docx "notes.doc" "att-9";
             attachment pdf "second.pdf" "att-1"]);
   ("m4", message_with "No name" [unnamed docx "att-9"]);
   ("m5", message_with "Empty name" [attachment docx "" "att-9"]);
   ("m6", PDict [(str_of_string "payload",
                  PDict [(str_of_string "mimeType", PStr pdf)])]);
   ("m7", message_with "Scanned" [attachment pdf "scan.pdf" "att-blank"]);
   ("m8", message_with "Damaged" [attachment pdf "bad.pdf" "att-bad"]);
   ("m9", message_with "Two with the first failing"
            [attachment pdf "gone.pdf" "att-down";
             attachment pdf "rate.pdf" "att-1"]);
   ("m10", message_with "Slow" [attachment pdf "slow.pdf" "att-slow"])].

(** The attachment resource of each attachment id. *)
Definition attachment_store : list (string * result pyval) :=
  [("att-1", Ok (PDict [(str_of_string "size", PInt 4);
                        (str_of_string "data", PStr "JVBERg==")]));
   ("att-9", Ok (PDict [(str_of_string "size", PInt 5);
                        (str_of_string "data", PStr "aGVsbG8=")]));
   ("att-blank", Ok (PDict [(str_of_string "size", PInt 5);
                            (str_of_string "data", PStr "JVBERiA=")]));
   ("att-bad", Ok (PDict [(str_of_string "size", PInt 5);
                          (str_of_string "data", PStr "aGVsbG8=")]));
   ("att-down", Raise (HttpError 500));
   ("att-slow", Raise (OtherException "TimeoutError"))].

(** base64 of ["%PDF"], of ["%PDF "] and of ["hello"]. *)
Definition decodings : list (string * bytes) :=
  [("JVBERg==", [Byte.x25; Byte.x50; Byte.x44; Byte.x46]);
   ("JVBERiA=", [Byte.x25; Byte.x50; Byte.x44; Byte.x46; Byte.x20]);
   ("aGVsbG8=", [Byte.x68; Byte.x65; Byte.x6c; Byte.x6c; Byte.x6f])].

Definition gmail : collaborators := {|
  messages_get := fun msg_id =>
    match msg_id with
    | PStr id =>
        match lookup id mailbox with
        | Some msg => Ok msg
        | None => Raise (HttpError 404)
        end
    | _ => Raise (HttpError 400)
    end;
  attachments_get := fun _ att_id =>
    match att_id with
    | PStr id =>
        match lookup id attachment_store with
        | Some r => r
        | None => Raise (HttpError 404)
        end
    | _ => Raise (HttpError 400)
    end;
  urlsafe_b64decode := fun data =>
    match lookup data decodings with
    | Some b => Ok b
    | None => Raise (OtherException "binascii.Error")
    end;
  extract_text_to_fp := fun pdf_bytes =>
    match pdf_bytes with
    | [Byte.x25; Byte.x50; Byte.x44; Byte.x46] =>
        Ok ([32; 10]%N ++ str_of_string "Rate Confirmation 42" ++ [10]%N)
    | [Byte.x25; Byte.x50; Byte.x44; Byte.x46; Byte.x20] =>
        Ok [32; 10; 9; 12]%N
    | _ => Raise (OtherException "PDFSyntaxError")
    end;
  push_data := fun _ => Ok tt;
  repr_container := fun _ => str_of_string "[...]"
|}.

Definition query : pyval :=
  PStr "subject:Rate Confirmation has:attachment".

Definition mimes : list pystr := [pdf; docx].

(** The same collaborators with a dataset that refuses every record. *)
Definition gmail_full_dataset : collaborators := {|
  messages_get := messages_get gmail;
  attachments_get := attachments_get gmail;
  urlsafe_b64decode := urlsafe_b64decode gmail;
  extract_text_to_fp := extract_text_to_fp gmail;
  push_data := fun _ => Raise (OtherException "ApifyApiError");
  repr_container := repr_container gmail
|}.


(** The same collaborators with an attachment service that answers every
    request with the data ["===="], which decodes to zero bytes. *)
Definition gmail_blank : collaborators := {|
  messages_get := messages_get gmail;
  attachments_get := fun _ _ =>
    Ok (PDict [(str_of_string "size", PInt 0);
               (str_of_string "data", PStr "====")]);
  urlsafe_b64decode := fun data =>
    if str_eqb data "====" then Ok [] else urlsafe_b64decode gmail data;
  extract_text_to_fp := extract_text_to_fp gmail;
  push_data := push_data gmail;
  repr_container := repr_container gmail
|}.

(** An actor input with credentials and a query, and no allow-list. *)
Definition actor_input : pyval :=
  PDict [(str_of_string "gmail_credentials.json", PStr "{...}");
         (str_of_string "gmailQuery", PStr "has:attachment")].

(** A start whose search answers with the given response. *)
Definition startup_with (input : pyval) (response : result pyval) : startup :=
  {| get_input := input;
     load_credentials := fun _ => Ok tt;
     build := fun _ => Ok tt;
     messages_list := fun _ _ => response |}.

Definition search_response (messages : list pyval) : pyval :=
  PDict [(str_of_string "messages", PList messages);
         (str_of_string "resultSizeEstimate",
          PInt (Z.of_nat (List.length messages)))].

End Sample.

(** * Proofs *)

Unset Implicit Arguments.

(** ** Strings and dicts *)

Lemma str_eqb_refl (s : pystr) : str_eqb s s = true.
Proof.
  induction s as [|x s IH]; simpl; [reflexivity|].
  now rewrite N.eqb_refl, IH.
Qed.

Lemma str_eqb_eq (a b : pystr) : str_eqb a b = true <-> a = b.
Proof.
  split; [|intros ->; apply str_eqb_refl].
  revert b; induction a as [|x a IH]; intros [|y b]; simpl; try discriminate.
  - reflexivity.
  - intros H. apply andb_true_iff in H as [Hx Hab].
    apply N.eqb_eq in Hx. now rewrite Hx, (IH _ Hab).
Qed.

Lemma truthy_PStr (s : pystr) : truthy (PStr s) = true <-> s <> [].
Proof. destruct s; simpl; split; congruence. Qed.

(** ** The walker *)

Lemma nested_parts_eq (recur : pyval -> result (list pyval)) (d : pydict) :
  nested_parts recur d =
  match dict_get "parts" d with
  | Some v => recur v
  | None => Ok []
  end.
Proof.
  induction d as [|[k v] d IH]; simpl; [reflexivity|].
  destruct (str_eqb k "parts"); [reflexivity|exact IH].
Qed.

Lemma preorder_eq (part : pyval) :
  preorder part = part :: flat_map preorder (children part).
Proof.
  destruct part as [| | | | |d]; try reflexivity.
  simpl. f_equal.
  induction d as [|[k v] d IH]; simpl; [reflexivity|].
  destruct (str_eqb k "parts"); [|exact IH].
  destruct v; reflexivity.
Qed.

Lemma well_formed_part_eq (d : pydict) :
  well_formed_part (PDict d) =
  match get_or "body" (PDict []) d with
  | PDict _ => true
  | _ => false
  end
  && match dict_get "parts" d with
     | Some v => well_formed_parts v
     | None => true
     end.
Proof.
  simpl. f_equal.
  induction d as [|[k v] d IH]; simpl; [reflexivity|].
  destruct (str_eqb k "parts"); [reflexivity|exact IH].
Qed.

Lemma find_mime_parts_eq (parts : pyval) (target_mimes : list pystr) :
  find_mime_parts parts target_mimes =
  if negb (truthy parts) then Ok []
  else
    match parts with
    | PList items =>
        walk_parts (fun v => find_mime_parts v target_mimes) target_mimes
          items []
    | PDict _ | PStr _ => Raise AttributeError
    | _ => Raise TypeError
    end.
Proof. destruct parts; reflexivity. Qed.

(** The accumulator of the loop only ever grows at its end. *)
Lemma walk_parts_acc recur target_mimes items found_parts :
  walk_parts recur target_mimes items found_parts =
  rbind (walk_parts recur target_mimes items [])
        (fun found => Ok (found_parts ++ found)).
Proof.
  revert found_parts.
  induction items as [|part rest IH]; intros acc; simpl.
  - now rewrite app_nil_r.
  - destruct part; try reflexivity.
    destruct (part_matches entries target_mimes) as [q|e]; simpl; [|reflexivity].
    destruct (nested_parts recur entries) as [sub|e]; simpl; [|reflexivity].
    rewrite IH. rewrite (IH ((if q then [PDict entries] else []) ++ sub)).
    destruct (walk_parts recur target_mimes rest []) as [r|e]; simpl;
      [|reflexivity].
    destruct q; simpl; now rewrite <- ?app_assoc.
Qed.

(** On a well-formed part the test of line 64 does not raise and is the
    specification's [qualifies]. *)
Lemma part_matches_qualifies (d : pydict) (target_mimes : list pystr) :
  match get_or "body" (PDict []) d with PDict _ => true | _ => false end
  = true ->
  part_matches d target_mimes = Ok (qualifies target_mimes (PDict d)).
Proof.
  unfold part_matches, qualifies, mime_allowed, has_attachment_id, get_or.
  intros Hbody.
  destruct (mime_in (get_or_none "mimeType" d) target_mimes);
    [|reflexivity].
  simpl. destruct (dict_get "body" d) as [[| | | | |body]|];
    try discriminate; reflexivity.
Qed.

Lemma dict_get_In (key : pystr) (d : pydict) v :
  dict_get key d = Some v -> exists k, In (k, v) d.
Proof.
  induction d as [|[k x] d IH]; simpl; [discriminate|].
  destruct (str_eqb k key).
  - intros [= <-]. exists k. now left.
  - intros H. destruct (IH H) as [k' Hin]. exists k'. now right.
Qed.

Lemma children_items_of (d : pydict) :
  children (PDict d) =
  match dict_get "parts" d with
  | Some v => items_of v
  | None => []
  end.
Proof.
  unfold children. destruct (dict_get "parts" d) as [[| | | | |]|]; reflexivity.
Qed.

(** The loop over a list of well-formed parts, given what the recursive
    calls return on the parts' own ['parts']. *)
Lemma walk_parts_well_formed target_mimes items :
  Forall (fun part =>
            well_formed_part part = true ->
            forall d, part = PDict d ->
            nested_parts (fun x => find_mime_parts x target_mimes) d =
            Ok (filter (qualifies target_mimes)
                  (flat_map preorder (children part)))) items ->
  forallb well_formed_part items = true ->
  walk_parts (fun x => find_mime_parts x target_mimes) target_mimes items [] =
  Ok (filter (qualifies target_mimes) (flat_map preorder items)).
Proof.
  induction 1 as [|part rest Hpart _ IH]; simpl; [reflexivity|].
  intros Hwf. apply andb_true_iff in Hwf as [Hp Hrest].
  destruct part as [| | | | |d]; try discriminate.
  specialize (Hpart Hp d eq_refl). specialize (IH Hrest).
  rewrite well_formed_part_eq in Hp. apply andb_true_iff in Hp as [Hbody _].
  rewrite (part_matches_qualifies d target_mimes Hbody). simpl rbind.
  rewrite Hpart. simpl rbind.
  rewrite walk_parts_acc, IH. simpl rbind.
  rewrite (preorder_eq (PDict d)). simpl flat_map.
  rewrite filter_app. cbn [filter app].
  destruct (qualifies target_mimes (PDict d)); simpl;
    now rewrite ?filter_app.
Qed.

(** The walker on well-formed input, for a value of ['parts'] and for a
    part's own nested call. *)
Lemma find_mime_parts_well_formed target_mimes (v : pyval) :
  (well_formed_parts v = true ->
   find_mime_parts v target_mimes =
   Ok (filter (qualifies target_mimes) (flat_map preorder (items_of v))))
  /\ (well_formed_part v = true ->
      forall d, v = PDict d ->
      nested_parts (fun x => find_mime_parts x target_mimes) d =
      Ok (filter (qualifies target_mimes)
            (flat_map preorder (children v)))).
Proof.
  induction v as [| b | z | s | items IH | es IH] using pyval_ind;
    (split; [intros Hwf | intros Hwf d Hd; try discriminate]).
  - reflexivity.
  - destruct b; [discriminate|reflexivity].
  - rewrite find_mime_parts_eq. unfold well_formed_parts in Hwf.
    destruct (negb (truthy (PInt z))); [reflexivity|discriminate].
  - destruct s; [reflexivity|discriminate].
  - rewrite find_mime_parts_eq.
    destruct items as [|p items]; [reflexivity|].
    cbn [truthy negb items_of]. unfold well_formed_parts in Hwf.
    cbn [truthy negb orb] in Hwf.
    apply walk_parts_well_formed; [|exact Hwf].
    eapply Forall_impl; [|exact IH]. intros part [_ H]. exact H.
  - destruct es; [reflexivity|discriminate].
  - injection Hd as <-. rewrite nested_parts_eq, children_items_of.
    rewrite well_formed_part_eq in Hwf. apply andb_true_iff in Hwf as [_ Hps].
    destruct (dict_get "parts" es) as [v|] eqn:Hget; [|reflexivity].
    destruct (dict_get_In _ _ _ Hget) as [k Hin].
    destruct (proj1 (Forall_forall _ _) IH _ Hin) as [Hv _].
    exact (Hv Hps).
Qed.

(** Whatever the input, a part the walker returns passed the test of
    line 64. *)
Lemma walk_parts_sound target_mimes items :
  Forall (fun part =>
            forall d found, part = PDict d ->
            nested_parts (fun x => find_mime_parts x target_mimes) d = Ok found ->
            Forall (matched target_mimes) found) items ->
  forall found,
  walk_parts (fun x => find_mime_parts x target_mimes) target_mimes items [] =
  Ok found ->
  Forall (matched target_mimes) found.
Proof.
  induction 1 as [|part rest Hpart _ IH]; simpl; intros found Hwalk.
  - injection Hwalk as <-. constructor.
  - destruct part as [| | | | |d]; try discriminate.
    destruct (part_matches d target_mimes) as [q|e] eqn:Hq; [|discriminate].
    simpl in Hwalk.
    destruct (nested_parts _ d) as [sub|e] eqn:Hsub; [|discriminate].
    simpl in Hwalk. rewrite walk_parts_acc in Hwalk.
    destruct (walk_parts _ target_mimes rest []) as [r|e]; [|discriminate].
    simpl in Hwalk. injection Hwalk as <-.
    apply Forall_app. split; [apply Forall_app; split|].
    + destruct q; constructor; [|constructor]. now exists d.
    + exact (Hpart d sub eq_refl Hsub).
    + exact (IH r eq_refl).
Qed.

Lemma find_mime_parts_sound target_mimes (v : pyval) :
  (forall found, find_mime_parts v target_mimes = Ok found ->
                 Forall (matched target_mimes) found)
  /\ (forall d found, v = PDict d ->
        nested_parts (fun x => find_mime_parts x target_mimes) d = Ok found ->
        Forall (matched target_mimes) found).
Proof.
  induction v as [| b | z | s | items IH | es IH] using pyval_ind;
    (split; [intros found Hf | intros d found Hd Hf; try discriminate]);
    try rewrite find_mime_parts_eq in Hf.
  - injection Hf as <-. constructor.
  - destruct b; [discriminate|]. injection Hf as <-. constructor.
  - destruct (negb (truthy (PInt z))); [|discriminate].
    injection Hf as <-. constructor.
  - destruct s; [|discriminate]. injection Hf as <-. constructor.
  - destruct items as [|p items]; [injection Hf as <-; constructor|].
    cbn [truthy negb] in Hf.
    eapply walk_parts_sound; [|exact Hf].
    eapply Forall_impl; [|exact IH]. intros part [_ H]. exact H.
  - destruct es; [|discriminate]. injection Hf as <-. constructor.
  - injection Hd as <-. rewrite nested_parts_eq in Hf.
    destruct (dict_get "parts" es) as [v|] eqn:Hget;
      [|injection Hf as <-; constructor].
    destruct (dict_get_In _ _ _ Hget) as [k Hin].
    destruct (proj1 (Forall_forall _ _) IH _ Hin) as [Hv _].
    exact (Hv found Hf).
Qed.

(** A part that passed the test has a dict body with a true
    ['attachmentId']: line 160 cannot raise on it. *)
Lemma matched_attachment_id target_mimes (part : pyval) :
  matched target_mimes part ->
  exists att_id, attachment_id_of part = Ok att_id /\ truthy att_id = true.
Proof.
  intros (d & -> & Hm). unfold part_matches, get_or in Hm.
  destruct (mime_in _ target_mimes); [|discriminate].
  unfold attachment_id_of. simpl.
  destruct (dict_get "body" d) as [[| | | | |body]|]; try discriminate.
  simpl. unfold get_or_none in Hm.
  destruct (dict_get "attachmentId" body) as [a|]; [|discriminate].
  exists a. split; [reflexivity|congruence].
Qed.

(** ** Computations of the loop *)

Lemma state_eta (st : state) : mk_state (log st) (dataset st) = st.
Proof. now destruct st. Qed.

Lemma logs_only_framed {A} (m : M A) : logs_only m -> framed m.
Proof.
  intros (r & l & H). exists r, l, []. intros st.
  now rewrite H, app_nil_r.
Qed.

Lemma framed_run {A} (m : M A) :
  framed m ->
  forall st,
    m st = (fst (m empty_state),
            mk_state (log st ++ log (snd (m empty_state)))
                     (dataset st ++ dataset (snd (m empty_state)))).
Proof.
  intros (r & l & d & H) st. rewrite (H empty_state), (H st). reflexivity.
Qed.

Lemma logs_only_ret {A} (a : A) : logs_only (ret a).
Proof.
  exists (Ok a), []. intros st. unfold ret.
  now rewrite app_nil_r, state_eta.
Qed.

Lemma logs_only_raise {A} (e : exn) : logs_only (@raise A e).
Proof.
  exists (Raise e), []. intros st. unfold raise.
  now rewrite app_nil_r, state_eta.
Qed.

Lemma logs_only_lift {A} (r : result A) : logs_only (lift r).
Proof.
  exists r, []. intros st. unfold lift. now rewrite app_nil_r, state_eta.
Qed.

Lemma logs_only_log_line (l : log_entry) : logs_only (log_line l).
Proof. exists (Ok tt), [l]. reflexivity. Qed.

Lemma logs_only_bind {A B} (m : M A) (k : A -> M B) :
  logs_only m -> (forall a, logs_only (k a)) -> logs_only (bind m k).
Proof.
  intros (r & l & Hm) Hk. destruct r as [a|e].
  - destruct (Hk a) as (r' & l' & Hka). exists r', (l ++ l').
    intros st. unfold bind. rewrite Hm, Hka. simpl. now rewrite app_assoc.
  - exists (Raise e), l. intros st. unfold bind. now rewrite Hm.
Qed.

Lemma logs_only_try_except {A} catches (body : M A) (handler : exn -> M A) :
  logs_only body -> (forall e, logs_only (handler e)) ->
  logs_only (try_except catches body handler).
Proof.
  intros (r & l & Hb) Hh. destruct r as [a|e].
  - exists (Ok a), l. intros st. unfold try_except. now rewrite Hb.
  - destruct (catches e) eqn:Hc.
    + destruct (Hh e) as (r' & l' & Hhe). exists r', (l ++ l').
      intros st. unfold try_except. rewrite Hb, Hc, Hhe. simpl.
      now rewrite app_assoc.
    + exists (Raise e), l. intros st. unfold try_except. now rewrite Hb, Hc.
Qed.

Lemma framed_bind {A B} (m : M A) (k : A -> M B) :
  framed m -> (forall a, framed (k a)) -> framed (bind m k).
Proof.
  intros (r & l & d & Hm) Hk. destruct r as [a|e].
  - destruct (Hk a) as (r' & l' & d' & Hka). exists r', (l ++ l'), (d ++ d').
    intros st. unfold bind. rewrite Hm, Hka. simpl. now rewrite !app_assoc.
  - exists (Raise e), l, d. intros st. unfold bind. now rewrite Hm.
Qed.

Lemma framed_try_except {A} catches (body : M A) (handler : exn -> M A) :
  framed body -> (forall e, framed (handler e)) ->
  framed (try_except catches body handler).
Proof.
  intros (r & l & d & Hb) Hh. destruct r as [a|e].
  - exists (Ok a), l, d. intros st. unfold try_except. now rewrite Hb.
  - destruct (catches e) eqn:Hc.
    + destruct (Hh e) as (r' & l' & d' & Hhe). exists r', (l ++ l'), (d ++ d').
      intros st. unfold try_except. rewrite Hb, Hc, Hhe. simpl.
      now rewrite !app_assoc.
    + exists (Raise e), l, d. intros st. unfold try_except.
      now rewrite Hb, Hc.
Qed.

Lemma logs_only_run {A} (m : M A) :
  logs_only m ->
  forall st, m st = (fst (m empty_state), add_log st (log (snd (m empty_state)))).
Proof.
  intros (r & l & H) st. rewrite (H empty_state), (H st). reflexivity.
Qed.

Lemma add_log_nil (st : state) : add_log st [] = st.
Proof. unfold add_log. now rewrite app_nil_r, state_eta. Qed.

Lemma add_log_add_log (st : state) (l1 l2 : list log_entry) :
  add_log (add_log st l1) l2 = add_log st (l1 ++ l2).
Proof. unfold add_log. simpl. now rewrite app_assoc. Qed.

(** One syntactic step of a [logs_only] goal. *)
Ltac frame_step :=
  lazymatch goal with
  | |- logs_only (ret _) => apply logs_only_ret
  | |- logs_only (raise _) => apply logs_only_raise
  | |- logs_only (lift _) => apply logs_only_lift
  | |- logs_only (log_line _) => apply logs_only_log_line
  | |- logs_only (bind _ _) => apply logs_only_bind; [|intros ?]
  | |- logs_only (try_except _ _ _) =>
      apply logs_only_try_except; [|intros ?]
  end.

Ltac frame := repeat frame_step.

Section Frames.

Variable c : collaborators.
Variable gmail_query : pyval.
Variable target_mimes : list pystr.

Lemma logs_only_get_attachment_data msg_id att_id :
  logs_only (get_attachment_data c msg_id att_id).
Proof.
  unfold get_attachment_data. frame.
  destruct a as [| | | | |d]; frame.
  cbv zeta. destruct (truthy (get_or_none "data" d)); frame.
  destruct (get_or_none "data" d); frame.
Qed.

Lemma logs_only_extract_attachment msg_id target_attachments :
  logs_only (extract_attachment c msg_id target_attachments).
Proof.
  unfold extract_attachment.
  destruct target_attachments as [|part _]; frame.
  destruct part as [| | | | |d]; frame.
  cbv zeta. frame.
  - apply logs_only_get_attachment_data.
  - match goal with
    | |- logs_only (if ?b && ?p then _ else _) =>
        destruct (b && p); [frame|destruct b; frame]
    end.
Qed.

Lemma logs_only_extract_stage msg_id :
  logs_only (extract_stage c target_mimes msg_id).
Proof.
  unfold extract_stage. frame.
  match goal with x : (pyval * pyval * list pyval)%type |- _ =>
    destruct x as [[s d] tas] end.
  frame. apply logs_only_extract_attachment.
Qed.

Lemma framed_push (r : output_record) : framed (push c r).
Proof.
  unfold push. destruct (push_data c r) as [[]|e].
  - exists (Ok tt), [], [r]. intros st. now rewrite app_nil_r.
  - exists (Raise e), [], []. intros st. now rewrite !app_nil_r, state_eta.
Qed.

Lemma framed_store_result msg_id x :
  framed (store_result c gmail_query target_mimes msg_id x).
Proof.
  destruct x as [[s d] [fname text]]. unfold store_result.
  destruct (text_truthy text).
  - apply framed_bind; [apply framed_push|].
    intros _. apply logs_only_framed. frame.
  - apply logs_only_framed. frame.
Qed.

Lemma framed_message_body msg_id :
  framed (message_body c gmail_query target_mimes msg_id).
Proof.
  unfold message_body. apply framed_bind.
  - apply logs_only_framed, logs_only_extract_stage.
  - intros x. apply framed_store_result.
Qed.

Lemma framed_process_message msg_count total message :
  framed (process_message c gmail_query target_mimes msg_count total message).
Proof.
  unfold process_message. apply framed_bind.
  - apply logs_only_framed. frame.
  - intros msg_id. apply framed_bind; [apply logs_only_framed; frame|].
    intros _. apply framed_try_except; [apply framed_message_body|].
    intros e. apply logs_only_framed. frame.
Qed.

End Frames.

(** ** The fetcher *)

Section Fetch.

Variable c : collaborators.

Lemma get_attachment_data_run msg_id att_id st :
  get_attachment_data c msg_id att_id st =
  (fetched c msg_id att_id, add_log st (fetch_log c msg_id att_id)).
Proof. apply logs_only_run, logs_only_get_attachment_data. Qed.

(** The value and the log of a fetch, by what the API call answers. *)
Lemma get_attachment_data_cases msg_id att_id :
  (fetched c msg_id att_id, fetch_log c msg_id att_id) =
  match attachments_get c msg_id att_id with
  | Raise (HttpError s) =>
      (Ok None, [LogFetchFailed att_id (HttpError s)])
  | Raise e => (Raise e, [])
  | Ok (PDict d) =>
      if truthy (get_or_none "data" d) then
        match get_or_none "data" d with
        | PStr s =>
            match urlsafe_b64decode c s with
            | Ok b => (Ok (Some b), [])
            | Raise (HttpError h) =>
                (Ok None, [LogFetchFailed att_id (HttpError h)])
            | Raise e => (Raise e, [])
            end
        | _ => (Raise AttributeError, [])
        end
      else (Ok None, [])
  | Ok _ => (Raise AttributeError, [])
  end.
Proof.
  unfold fetched, fetch_log, get_attachment_data, try_except, bind, lift.
  destruct (attachments_get c msg_id att_id) as [att|e].
  - destruct att as [| | | | |d]; try reflexivity.
    destruct (truthy (get_or_none "data" d)); [|reflexivity].
    destruct (get_or_none "data" d); try reflexivity.
    destruct (urlsafe_b64decode c s) as [b|e]; [reflexivity|].
    destruct e; reflexivity.
  - destruct e; reflexivity.
Qed.

Lemma fetched_Some_log msg_id att_id b :
  fetched c msg_id att_id = Ok (Some b) -> fetch_log c msg_id att_id = [].
Proof.
  intros H. pose proof (get_attachment_data_cases msg_id att_id) as E.
  rewrite H in E.
  destruct (attachments_get c msg_id att_id) as [[| | | | |d]|[]];
    try (injection E as _ E; exact E); try discriminate E.
  destruct (truthy _); [|discriminate E].
  destruct (get_or_none "data" d);
    try (injection E as _ E; exact E); try discriminate E.
  destruct (urlsafe_b64decode c s) as [|[]];
    try (injection E as _ E; exact E); discriminate E.
Qed.

Lemma fetched_Raise_log msg_id att_id e :
  fetched c msg_id att_id = Raise e -> fetch_log c msg_id att_id = [].
Proof.
  intros H. pose proof (get_attachment_data_cases msg_id att_id) as E.
  rewrite H in E.
  destruct (attachments_get c msg_id att_id) as [[| | | | |d]|[]];
    try (injection E as _ E; exact E); try discriminate E.
  destruct (truthy _); [|discriminate E].
  destruct (get_or_none "data" d);
    try (injection E as _ E; exact E); try discriminate E.
  destruct (urlsafe_b64decode c s) as [|[]];
    try (injection E as _ E; exact E); discriminate E.
Qed.

End Fetch.

(** ** One message *)

Section Message.

Variable c : collaborators.
Variable gmail_query : pyval.
Variable target_mimes : list pystr.

(** Lines 156-183 on a discovered sequence whose first entry is a dict
    with an attachment reference: the value and the state, by what the
    fetch and the extraction give. *)
Lemma extract_attachment_run msg_id d others att_id st :
  attachment_id_of (PDict d) = Ok att_id ->
  extract_attachment c msg_id (PDict d :: others) st =
  let filename := filename_of d in
  let mime := get_or_none "mimeType" d in
  let st1 :=
    add_log st (LogFoundAttachment filename mime
                :: fetch_log c msg_id att_id) in
  match fetched c msg_id att_id with
  | Raise e => (Raise e, st1)
  | Ok b =>
      if bytes_truthy b && is_pdf mime then
        match extract_pdf_text c (the_bytes b) with
        | Ok text =>
            (Ok (filename, Some text),
             add_log st1 [LogExtracted (List.length text)])
        | Raise e => (Ok (PNone, None), add_log st1 [LogPdfFailed e])
        end
      else if bytes_truthy b then
        (Ok (filename, Some (placeholder c filename (the_bytes b))),
         add_log st1 [LogNotConverted mime])
      else (Ok (PNone, None), st1)
  end.
Proof.
  intros Hatt. unfold attachment_id_of in Hatt.
  unfold extract_attachment, filename_of.
  destruct (subscript (PDict d) "body") as [body|e] eqn:Hbody;
    [|discriminate].
  simpl rbind in Hatt. cbv zeta.
  unfold bind at 1. unfold lift at 1.
  unfold bind at 1. unfold lift at 1. rewrite Hatt.
  unfold bind at 1. unfold log_line at 1.
  unfold bind at 1. rewrite get_attachment_data_run.
  fold (add_log st [LogFoundAttachment
                      (get_or "filename" (PStr "untitled_attachment") d)
                      (get_or_none "mimeType" d)]).
  rewrite add_log_add_log. simpl app.
  destruct (fetched c msg_id att_id) as [b|e]; [|reflexivity].
  destruct (bytes_truthy b && is_pdf (get_or_none "mimeType" d)).
  - unfold try_except, bind, lift, log_line, ret.
    destruct (extract_pdf_text c (the_bytes b)); reflexivity.
  - destruct (bytes_truthy b); reflexivity.
Qed.

Lemma extract_attachment_nil msg_id st :
  extract_attachment c msg_id [] st = (Ok (PNone, None), st).
Proof. reflexivity. Qed.

(** Lines 139-183 by what the message read gives. *)
Lemma extract_stage_run msg_id st :
  extract_stage c target_mimes msg_id st =
  match read_message c target_mimes msg_id with
  | Ok (subject, date, target_attachments) =>
      match extract_attachment c msg_id target_attachments st with
      | (Ok extracted, st1) => (Ok (subject, date, extracted), st1)
      | (Raise e, st1) => (Raise e, st1)
      end
  | Raise e => (Raise e, st)
  end.
Proof.
  unfold extract_stage, bind, lift, ret.
  destruct (read_message c target_mimes msg_id) as [[[s d] tas]|e];
    [|reflexivity].
  destruct (extract_attachment c msg_id tas st) as [[x|e] st1]; reflexivity.
Qed.

(** The extraction step pushes nothing and does not look at the state. *)
Lemma extract_stage_frame msg_id st :
  extract_stage c target_mimes msg_id st =
  (fst (extract_stage c target_mimes msg_id empty_state),
   add_log st (log (snd (extract_stage c target_mimes msg_id empty_state)))).
Proof. apply logs_only_run, logs_only_extract_stage. Qed.

(** Lines 186-202. *)
Lemma store_result_run msg_id s d fname text st :
  store_result c gmail_query target_mimes msg_id (s, d, (fname, text)) st =
  if text_truthy text then
    match push_data c (mk_record msg_id s d fname gmail_query target_mimes
                         (the_text text)) with
    | Ok _ =>
        (Ok tt,
         mk_state (log st ++ [LogPushed msg_id])
           (dataset st
            ++ [mk_record msg_id s d fname gmail_query target_mimes
                  (the_text text)]))
    | Raise e => (Raise e, st)
    end
  else (Ok tt, add_log st [LogSkipping msg_id]).
Proof.
  unfold store_result. destruct (text_truthy text); [|reflexivity].
  unfold bind, push, log_line.
  destruct (push_data c _); reflexivity.
Qed.

Lemma message_body_run msg_id st :
  message_body c gmail_query target_mimes msg_id st =
  match extract_stage c target_mimes msg_id st with
  | (Ok x, st1) => store_result c gmail_query target_mimes msg_id x st1
  | (Raise e, st1) => (Raise e, st1)
  end.
Proof. reflexivity. Qed.

(** Lines 135-205 for a candidate with an identifier: the iteration
    returns, with the handler's line when the body raised. *)
Lemma process_message_run msg_count total message msg_id st :
  subscript message "id" = Ok msg_id ->
  process_message c gmail_query target_mimes msg_count total message st =
  match message_body c gmail_query target_mimes msg_id
          (add_log st [LogProcessing msg_count total msg_id]) with
  | (Ok _, st1) => (Ok tt, st1)
  | (Raise e, st1) => (Ok tt, add_log st1 [LogUnexpected msg_id e])
  end.
Proof.
  intros Hid. unfold process_message, bind at 1, lift at 1. rewrite Hid.
  unfold bind, log_line, try_except. fold (add_log st [LogProcessing msg_count total msg_id]).
  destruct (message_body _ _ _ _ _) as [[[]|e] st1]; reflexivity.
Qed.

(** A body that raises has pushed nothing. *)
Lemma message_body_raise msg_id st e st1 :
  message_body c gmail_query target_mimes msg_id st = (Raise e, st1) ->
  dataset st1 = dataset st.
Proof.
  rewrite message_body_run, extract_stage_frame.
  destruct (fst (extract_stage c target_mimes msg_id empty_state))
    as [[[s d] [fname text]]|e'].
  - rewrite store_result_run.
    destruct (text_truthy text); [|discriminate].
    destruct (push_data c _); [discriminate|].
    intros [= _ <-]. reflexivity.
  - intros [= _ <-]. reflexivity.
Qed.

End Message.

Section MessageEffect.

Variable c : collaborators.
Variable gmail_query : pyval.
Variable target_mimes : list pystr.

Lemma store_result_record msg_id x st :
  store_result c gmail_query target_mimes msg_id x st =
  if text_truthy (snd (snd x)) then
    match push_data c (record_of gmail_query target_mimes msg_id x) with
    | Ok _ =>
        (Ok tt,
         mk_state (log st ++ [LogPushed msg_id])
           (dataset st ++ [record_of gmail_query target_mimes msg_id x]))
    | Raise e => (Raise e, st)
    end
  else (Ok tt, add_log st [LogSkipping msg_id]).
Proof.
  destruct x as [[s d] [fname text]]. apply store_result_run.
Qed.

(** One iteration on a candidate with an identifier returns normally; the
    dataset grows by [emitted], and the log by a segment that starts with
    the "Processing" line and ends with a terminal line. *)
Lemma process_message_effect msg_count total message msg_id st :
  subscript message "id" = Ok msg_id ->
  exists middle last,
    terminal msg_id last
    /\ process_message c gmail_query target_mimes msg_count total message st
       = (Ok tt,
          mk_state
            (log st ++ LogProcessing msg_count total msg_id
                       :: middle ++ [last])
            (dataset st ++ emitted c gmail_query target_mimes msg_id))
    /\ (forall e, last = LogUnexpected msg_id e ->
          emitted c gmail_query target_mimes msg_id = []).
Proof.
  intros Hid.
  rewrite (process_message_run c gmail_query target_mimes msg_count total
             message msg_id st Hid).
  rewrite message_body_run, extract_stage_frame.
  unfold emitted, extraction.
  set (l := log (snd (extract_stage c target_mimes msg_id empty_state))).
  destruct (fst (extract_stage c target_mimes msg_id empty_state))
    as [x|e].
  - rewrite store_result_record.
    destruct (text_truthy (snd (snd x))).
    + destruct (push_data c _) as [[]|e].
      * exists l, (LogPushed msg_id). split; [now left|].
        split; [|intros e [=]].
        unfold add_log. simpl. rewrite <- !app_assoc. reflexivity.
      * exists l, (LogUnexpected msg_id e).
        split; [right; right; now exists e|]. split; [|reflexivity].
        unfold add_log. simpl. rewrite <- !app_assoc, app_nil_r.
        reflexivity.
    + exists l, (LogSkipping msg_id). split; [right; now left|].
      split; [|intros e [=]].
      unfold add_log. simpl. rewrite <- !app_assoc, app_nil_r. reflexivity.
  - exists l, (LogUnexpected msg_id e).
    split; [right; right; now exists e|]. split; [|reflexivity].
    unfold add_log. simpl. rewrite <- !app_assoc, app_nil_r. reflexivity.
Qed.

Lemma message_records_emitted message msg_id :
  subscript message "id" = Ok msg_id ->
  message_records c gmail_query target_mimes message
  = emitted c gmail_query target_mimes msg_id.
Proof.
  intros Hid. unfold message_records.
  destruct (process_message_effect 1 1 message msg_id empty_state Hid)
    as (middle & last & _ & -> & _).
  reflexivity.
Qed.

(** One iteration, in terms of what the message does on its own. *)
Lemma process_message_alone msg_count total message st :
  has_id message ->
  process_message c gmail_query target_mimes msg_count total message st
  = (Ok tt,
     mk_state
       (log st ++ message_log c gmail_query target_mimes msg_count total
                    message)
       (dataset st ++ message_records c gmail_query target_mimes message)).
Proof.
  intros [msg_id Hid].
  rewrite (framed_run _
             (framed_process_message c gmail_query target_mimes
                msg_count total message) st).
  unfold message_log.
  destruct (process_message_effect msg_count total message msg_id
              empty_state Hid)
    as (middle & last & _ & E & _).
  rewrite E. simpl. now rewrite (message_records_emitted message msg_id Hid).
Qed.

(** The loop over candidates that all carry an identifier. *)
Lemma process_from_run total msg_count messages st :
  Forall has_id messages ->
  process_from c gmail_query target_mimes total msg_count messages st
  = (Ok tt,
     mk_state
       (log st ++ run_log c gmail_query target_mimes total msg_count
                    messages)
       (dataset st
        ++ flat_map (message_records c gmail_query target_mimes) messages)).
Proof.
  intros Hids. revert msg_count st.
  induction Hids as [|message rest Hid _ IH]; intros msg_count st; simpl.
  - unfold ret. now rewrite !app_nil_r, state_eta.
  - unfold bind. rewrite (process_message_alone msg_count total message st Hid), IH. simpl.
    now rewrite <- !app_assoc.
Qed.

End MessageEffect.

(** ** The extraction step as a function of the first attachment *)

Section Extraction.

Variable c : collaborators.
Variable gmail_query : pyval.
Variable target_mimes : list pystr.

Lemma extract_attachment_first msg_id part others st :
  fst (extract_attachment c msg_id (part :: others) st)
  = extract_first c msg_id part.
Proof.
  unfold extract_first.
  change (extract_attachment c msg_id (part :: others))
    with (extract_attachment c msg_id [part]).
  now rewrite (logs_only_run _
                 (logs_only_extract_attachment c msg_id [part]) st).
Qed.

Lemma extraction_run msg_id :
  extraction c target_mimes msg_id =
  match read_message c target_mimes msg_id with
  | Ok (s, d, []) => Ok (s, d, (PNone, None))
  | Ok (s, d, part :: _) =>
      rbind (extract_first c msg_id part) (fun x => Ok (s, d, x))
  | Raise e => Raise e
  end.
Proof.
  unfold extraction. rewrite extract_stage_run.
  destruct (read_message c target_mimes msg_id) as [[[s d] tas]|e];
    [|reflexivity].
  destruct tas as [|part others]; [reflexivity|].
  rewrite <- (extract_attachment_first msg_id part others empty_state).
  destruct (extract_attachment c msg_id (part :: others) empty_state)
    as [[x|e] st1]; reflexivity.
Qed.

(** The first attachment's result, by what its fetch and its extraction
    give. *)
Lemma extract_first_dict msg_id d att_id :
  attachment_id_of (PDict d) = Ok att_id ->
  extract_first c msg_id (PDict d) =
  match fetched c msg_id att_id with
  | Raise e => Raise e
  | Ok b =>
      if bytes_truthy b && is_pdf (get_or_none "mimeType" d) then
        match extract_pdf_text c (the_bytes b) with
        | Ok text => Ok (filename_of d, Some text)
        | Raise e => Ok (PNone, None)
        end
      else if bytes_truthy b then
        Ok (filename_of d,
            Some (placeholder c (filename_of d) (the_bytes b)))
      else Ok (PNone, None)
  end.
Proof.
  intros Hatt. unfold extract_first.
  rewrite (extract_attachment_run c msg_id d [] att_id empty_state Hatt).
  cbv zeta. destruct (fetched c msg_id att_id) as [b|e]; [|reflexivity].
  destruct (bytes_truthy b && _).
  - destruct (extract_pdf_text c (the_bytes b)); reflexivity.
  - destruct (bytes_truthy b); reflexivity.
Qed.

(** A first attachment with a true text is a dict, and the file name that
    goes with the text is the one line 159 read. *)
Lemma extract_first_name msg_id part fname text :
  extract_first c msg_id part = Ok (fname, text) ->
  text_truthy text = true ->
  exists d, part = PDict d /\ fname = filename_of d.
Proof.
  intros Hx Ht. destruct part as [| | | | |d]; try discriminate Hx.
  exists d. split; [reflexivity|].
  destruct (attachment_id_of (PDict d)) as [att_id|e] eqn:Hatt.
  - rewrite (extract_first_dict msg_id d att_id Hatt) in Hx.
    destruct (fetched c msg_id att_id) as [b|e]; [|discriminate].
    destruct (bytes_truthy b && _).
    + destruct (extract_pdf_text c (the_bytes b));
        injection Hx as <- <-; [reflexivity|discriminate].
    + destruct (bytes_truthy b); injection Hx as <- <-;
        [reflexivity|discriminate].
  - exfalso. unfold extract_first, extract_attachment in Hx.
    unfold attachment_id_of in Hatt. unfold bind, lift in Hx.
    destruct (subscript (PDict d) "body") as [body|e'];
      [|discriminate Hx].
    simpl rbind in Hatt. rewrite Hatt in Hx. discriminate Hx.
Qed.

(** The dataset after one iteration. *)
Lemma process_message_dataset msg_count total message msg_id st :
  subscript message "id" = Ok msg_id ->
  exists st',
    process_message c gmail_query target_mimes msg_count total message st
    = (Ok tt, st')
    /\ dataset st'
       = dataset st ++ emitted c gmail_query target_mimes msg_id.
Proof.
  intros Hid.
  destruct (process_message_effect c gmail_query target_mimes msg_count
              total message msg_id st Hid) as (middle & last & _ & E & _).
  eexists. split; [exact E|reflexivity].
Qed.

End Extraction.

Section FirstAttachment.

Variable c : collaborators.
Variable gmail_query : pyval.
Variable target_mimes : list pystr.

(** One iteration on a message whose first discovered attachment is a
    dict with an attachment reference. *)
Lemma process_message_first msg_count total message msg_id s d pd others
  att_id st :
  subscript message "id" = Ok msg_id ->
  read_message c target_mimes msg_id = Ok (s, d, PDict pd :: others) ->
  attachment_id_of (PDict pd) = Ok att_id ->
  process_message c gmail_query target_mimes msg_count total message st =
  let fname := filename_of pd in
  let mime := get_or_none "mimeType" pd in
  let st1 :=
    add_log st (LogProcessing msg_count total msg_id
                :: LogFoundAttachment fname mime
                :: fetch_log c msg_id att_id) in
  match fetched c msg_id att_id with
  | Raise e => (Ok tt, add_log st1 [LogUnexpected msg_id e])
  | Ok b =>
      if bytes_truthy b && is_pdf mime then
        match extract_pdf_text c (the_bytes b) with
        | Ok text =>
            finish c gmail_query target_mimes msg_id (s, d, (fname, Some text))
              (add_log st1 [LogExtracted (List.length text)])
        | Raise e => (Ok tt, add_log st1 [LogPdfFailed e; LogSkipping msg_id])
        end
      else if bytes_truthy b then
        finish c gmail_query target_mimes msg_id
          (s, d, (fname, Some (placeholder c fname (the_bytes b))))
          (add_log st1 [LogNotConverted mime])
      else (Ok tt, add_log st1 [LogSkipping msg_id])
  end.
Proof.
  intros Hid Hread Hatt.
  rewrite (process_message_run c gmail_query target_mimes msg_count total
             message msg_id st Hid).
  rewrite message_body_run, extract_stage_run, Hread.
  rewrite (extract_attachment_run c msg_id pd others att_id _ Hatt).
  cbv zeta. rewrite add_log_add_log. simpl app. unfold finish.
  destruct (fetched c msg_id att_id) as [b|e]; [|reflexivity].
  destruct (bytes_truthy b && _).
  - destruct (extract_pdf_text c (the_bytes b)) as [text|e];
      [reflexivity|].
    rewrite store_result_run. simpl text_truthy. cbv iota.
    now rewrite add_log_add_log.
  - destruct (bytes_truthy b); [reflexivity|].
    rewrite store_result_run. reflexivity.
Qed.

Lemma finish_pushed msg_id s d fname text st :
  text <> [] ->
  push_data c (mk_record msg_id s d fname gmail_query target_mimes text)
  = Ok tt ->
  finish c gmail_query target_mimes msg_id (s, d, (fname, Some text)) st
  = (Ok tt,
     mk_state (log st ++ [LogPushed msg_id])
       (dataset st
        ++ [mk_record msg_id s d fname gmail_query target_mimes text])).
Proof.
  intros Hne Hpush. unfold finish. rewrite store_result_run.
  destruct text as [|ch text]; [congruence|].
  simpl text_truthy. cbv iota. simpl the_text. now rewrite Hpush.
Qed.

(** Lines 186-205 on a non-empty text, by what the dataset answers. *)
Lemma finish_text msg_id s d fname text st :
  text <> [] ->
  finish c gmail_query target_mimes msg_id (s, d, (fname, Some text)) st
  = match push_data c
            (mk_record msg_id s d fname gmail_query target_mimes text) with
    | Ok _ =>
        (Ok tt,
         mk_state (log st ++ [LogPushed msg_id])
           (dataset st
            ++ [mk_record msg_id s d fname gmail_query target_mimes text]))
    | Raise e => (Ok tt, add_log st [LogUnexpected msg_id e])
    end.
Proof.
  intros Hne. unfold finish. rewrite store_result_run.
  destruct text as [|ch text]; [congruence|].
  simpl text_truthy. cbv iota. simpl the_text.
  destruct (push_data c _); reflexivity.
Qed.

Lemma placeholder_not_nil filename payload :
  placeholder c filename payload <> [].
Proof.
  unfold placeholder. destruct (format_value c filename); discriminate.
Qed.

Lemma finish_empty msg_id s d fname st :
  finish c gmail_query target_mimes msg_id (s, d, (fname, Some [])) st
  = (Ok tt, add_log st [LogSkipping msg_id]).
Proof. reflexivity. Qed.

End FirstAttachment.

Section Names.

Variable c : collaborators.
Variable gmail_query : pyval.
Variable target_mimes : list pystr.

(** A record the dataset takes for a message carries the file name of the
    first discovered attachment. *)
Lemma emitted_name msg_id s d pd others r :
  read_message c target_mimes msg_id = Ok (s, d, PDict pd :: others) ->
  In r (emitted c gmail_query target_mimes msg_id) ->
  attachmentName r = filename_of pd.
Proof.
  intros Hread Hin. unfold emitted in Hin.
  rewrite extraction_run, Hread in Hin.
  destruct (extract_first c msg_id (PDict pd)) as [[fname text]|e] eqn:Hx;
    [|destruct Hin].
  simpl in Hin.
  destruct (text_truthy text) eqn:Ht; [|destruct Hin].
  destruct (extract_first_name c msg_id (PDict pd) fname text Hx Ht)
    as (pd' & [= <-] & ->).
  destruct (push_data c _); [|destruct Hin].
  destruct Hin as [<-|[]]. reflexivity.
Qed.

End Names.

Section Emitted.

Variable c : collaborators.
Variable gmail_query : pyval.
Variable target_mimes : list pystr.

(** The dataset takes nothing, or one record with a non-empty text that
    the extraction step produced. *)
Lemma emitted_cases msg_id :
  emitted c gmail_query target_mimes msg_id = []
  \/ exists s d fname text,
       extraction c target_mimes msg_id = Ok (s, d, (fname, Some text))
       /\ text <> []
       /\ push_data c
            (mk_record msg_id s d fname gmail_query target_mimes text)
          = Ok tt
       /\ emitted c gmail_query target_mimes msg_id
          = [mk_record msg_id s d fname gmail_query target_mimes text].
Proof.
  unfold emitted.
  destruct (extraction c target_mimes msg_id)
    as [[[s d] [fname text]]|e]; [|now left].
  simpl. destruct text as [[|ch text]|]; simpl; try now left.
  destruct (push_data c _) as [[]|e] eqn:Hpush; [|now left].
  right. exists s, d, fname, (ch :: text).
  repeat split; [discriminate|exact Hpush].
Qed.

Lemma emitted_pushed msg_id s d fname text :
  extraction c target_mimes msg_id = Ok (s, d, (fname, Some text)) ->
  text <> [] ->
  push_data c (mk_record msg_id s d fname gmail_query target_mimes text)
  = Ok tt ->
  emitted c gmail_query target_mimes msg_id
  = [mk_record msg_id s d fname gmail_query target_mimes text].
Proof.
  intros Hx Hne Hpush. unfold emitted. rewrite Hx. simpl.
  destruct text as [|ch text]; [congruence|]. simpl. now rewrite Hpush.
Qed.

Lemma emitted_no_text msg_id s d fname text :
  extraction c target_mimes msg_id = Ok (s, d, (fname, text)) ->
  text_truthy text = false ->
  emitted c gmail_query target_mimes msg_id = [].
Proof. intros Hx Ht. unfold emitted. rewrite Hx. simpl. now rewrite Ht. Qed.

Lemma emitted_raise msg_id e :
  extraction c target_mimes msg_id = Raise e ->
  emitted c gmail_query target_mimes msg_id = [].
Proof. intros Hx. unfold emitted. now rewrite Hx. Qed.

End Emitted.

(** ** The run *)

Section Run.

Variable c : collaborators.
Variable gmail_query : pyval.
Variable target_mimes : list pystr.

Lemma run_log_app total msg_count (a b : list pyval) :
  run_log c gmail_query target_mimes total msg_count (a ++ b)
  = run_log c gmail_query target_mimes total msg_count a
    ++ run_log c gmail_query target_mimes total
         (msg_count + List.length a) b.
Proof.
  revert msg_count. induction a as [|m a IH]; intros msg_count; simpl.
  - now rewrite Nat.add_0_r.
  - rewrite IH, <- app_assoc. simpl. now rewrite Nat.add_succ_r.
Qed.

(** A message whose body raises: the handler's line closes its log
    segment, and it leaves no record. *)
Lemma body_raises_effect msg_count total message msg_id e :
  subscript message "id" = Ok msg_id ->
  body_raises c gmail_query target_mimes msg_id e ->
  (exists middle,
     message_log c gmail_query target_mimes msg_count total message
     = LogProcessing msg_count total msg_id
       :: middle ++ [LogUnexpected msg_id e])
  /\ message_records c gmail_query target_mimes message = [].
Proof.
  intros Hid Hraise. unfold body_raises in Hraise.
  assert (forall n t,
            process_message c gmail_query target_mimes n t message
              empty_state
            = (Ok tt,
               mk_state
                 (LogProcessing n t msg_id
                  :: log (snd (message_body c gmail_query target_mimes
                                 msg_id empty_state))
                     ++ [LogUnexpected msg_id e])
                 [])) as Hrun.
  { intros n t.
    rewrite (process_message_run c gmail_query target_mimes n t message
               msg_id empty_state Hid).
    rewrite (framed_run _ (framed_message_body c gmail_query target_mimes
                             msg_id)).
    rewrite Hraise.
    destruct (message_body c gmail_query target_mimes msg_id empty_state)
      as [r st1] eqn:Hbody.
    simpl in Hraise. subst r.
    pose proof (message_body_raise c gmail_query target_mimes msg_id
                  empty_state e st1 Hbody) as Hds.
    simpl in Hds. simpl. rewrite Hds. reflexivity. }
  split.
  - eexists. unfold message_log. rewrite Hrun. reflexivity.
  - unfold message_records. rewrite Hrun. reflexivity.
Qed.

(** The log segment of a candidate with an identifier starts with its
    "Processing" line and ends with its terminal line. *)
Lemma message_log_shape msg_count total message msg_id :
  subscript message "id" = Ok msg_id ->
  exists middle last,
    terminal msg_id last
    /\ message_log c gmail_query target_mimes msg_count total message
       = LogProcessing msg_count total msg_id :: middle ++ [last].
Proof.
  intros Hid.
  destruct (process_message_effect c gmail_query target_mimes msg_count
              total message msg_id empty_state Hid)
    as (middle & last & Hterm & E & _).
  exists middle, last. split; [exact Hterm|].
  unfold message_log. rewrite E. reflexivity.
Qed.

End Run.

(** ** The discovered attachments and the attachment service *)

Section Discovered.

Variable c : collaborators.
Variable gmail_query : pyval.
Variable target_mimes : list pystr.

(** Every discovered attachment passed the test of line 64. *)
Lemma read_message_matched msg_id s d target_attachments :
  read_message c target_mimes msg_id = Ok (s, d, target_attachments) ->
  Forall (matched target_mimes) target_attachments.
Proof.
  unfold read_message. intros H.
  destruct (messages_get c msg_id) as [msg|e]; [|discriminate H].
  simpl rbind in H.
  destruct (subscript msg "payload") as [payload|e]; [|discriminate H].
  simpl rbind in H.
  destruct (subscript payload "headers") as [hs|e]; [|discriminate H].
  simpl rbind in H.
  destruct (py_iter hs) as [items|e]; [|discriminate H]. simpl rbind in H.
  destruct (headers_dict items) as [headers|e]; [|discriminate H].
  simpl rbind in H.
  destruct (all_parts_of payload) as [all_parts|e]; [|discriminate H].
  simpl rbind in H.
  destruct (find_mime_parts all_parts target_mimes) as [found|e] eqn:Hf;
    [|discriminate H].
  simpl rbind in H. injection H as _ _ <-.
  exact (proj1 (find_mime_parts_sound target_mimes all_parts) found Hf).
Qed.

(** The first discovered attachment is a dict with an attachment
    reference. *)
Lemma read_message_first msg_id s d part others :
  read_message c target_mimes msg_id = Ok (s, d, part :: others) ->
  exists pd att_id, part = PDict pd /\ attachment_id_of part = Ok att_id.
Proof.
  intros Hread.
  pose proof (read_message_matched msg_id s d (part :: others) Hread) as Hm.
  inversion Hm as [|p l Hp _]; subst.
  destruct (matched_attachment_id target_mimes part Hp) as (att_id & Ha & _).
  destruct Hp as (pd & -> & _). now exists pd, att_id.
Qed.

(** A fetch asks the attachment service for the one attachment it is
    given: another service that answers the same there gives the same
    fetch. *)
Lemma fetch_with_attachments g msg_id att_id :
  g msg_id att_id = attachments_get c msg_id att_id ->
  fetched (with_attachments c g) msg_id att_id = fetched c msg_id att_id
  /\ fetch_log (with_attachments c g) msg_id att_id
     = fetch_log c msg_id att_id.
Proof.
  intros Hg.
  pose proof (get_attachment_data_cases (with_attachments c g) msg_id att_id)
    as E'.
  pose proof (get_attachment_data_cases c msg_id att_id) as E.
  simpl attachments_get in E'. simpl urlsafe_b64decode in E'.
  rewrite Hg, <- E in E'. now injection E' as -> ->.
Qed.

(** One iteration looks at the attachment service only for the first
    discovered attachment. *)
Lemma process_message_with_attachments g msg_count total message msg_id
  s d pd others att_id st :
  subscript message "id" = Ok msg_id ->
  read_message c target_mimes msg_id = Ok (s, d, PDict pd :: others) ->
  attachment_id_of (PDict pd) = Ok att_id ->
  g msg_id att_id = attachments_get c msg_id att_id ->
  process_message (with_attachments c g) gmail_query target_mimes msg_count
    total message st
  = process_message c gmail_query target_mimes msg_count total message st.
Proof.
  intros Hid Hread Hatt Hg.
  rewrite (process_message_first (with_attachments c g) gmail_query
             target_mimes msg_count total message msg_id s d pd others
             att_id st Hid Hread Hatt).
  rewrite (process_message_first c gmail_query target_mimes msg_count total
             message msg_id s d pd others att_id st Hid Hread Hatt).
  destruct (fetch_with_attachments g msg_id att_id Hg) as [-> ->].
  reflexivity.
Qed.

End Discovered.

(** ** The walker along a list *)

Lemma walk_parts_app recur target_mimes (a b found_parts : list pyval) :
  walk_parts recur target_mimes (a ++ b) found_parts
  = rbind (walk_parts recur target_mimes a found_parts)
      (fun found => walk_parts recur target_mimes b found).
Proof.
  revert found_parts. induction a as [|part a IH]; intros acc; simpl.
  - reflexivity.
  - destruct part; try reflexivity.
    destruct (part_matches entries target_mimes) as [q|e]; simpl;
      [|reflexivity].
    destruct (nested_parts recur entries) as [sub|e]; simpl; [|reflexivity].
    apply IH.
Qed.

Lemma find_mime_parts_PList (items : list pyval) (target_mimes : list pystr) :
  find_mime_parts (PList items) target_mimes
  = walk_parts (fun v => find_mime_parts v target_mimes) target_mimes items [].
Proof. rewrite find_mime_parts_eq. destruct items; reflexivity. Qed.

(** The walker raises nothing but [AttributeError] and [TypeError]. *)
Lemma part_matches_exn d target_mimes e :
  part_matches d target_mimes = Raise e -> e = AttributeError.
Proof.
  unfold part_matches. destruct (mime_in _ target_mimes); [|discriminate].
  destruct (get_or "body" (PDict []) d); congruence.
Qed.

Lemma walk_parts_exn target_mimes items :
  Forall (fun part =>
            forall d e, part = PDict d ->
            nested_parts (fun x => find_mime_parts x target_mimes) d = Raise e ->
            e = AttributeError \/ e = TypeError) items ->
  forall found_parts e,
  walk_parts (fun x => find_mime_parts x target_mimes) target_mimes items
    found_parts = Raise e ->
  e = AttributeError \/ e = TypeError.
Proof.
  induction 1 as [|part rest Hpart _ IH]; simpl; intros acc e Hwalk.
  - discriminate.
  - destruct part as [| | | | |d]; try (left; congruence).
    destruct (part_matches d target_mimes) as [q|e'] eqn:Hq.
    + simpl in Hwalk.
      destruct (nested_parts _ d) as [sub|e'] eqn:Hsub.
      * simpl in Hwalk. exact (IH _ e Hwalk).
      * simpl in Hwalk. injection Hwalk as <-.
        exact (Hpart d e' eq_refl Hsub).
    + simpl in Hwalk. injection Hwalk as <-. left.
      exact (part_matches_exn d target_mimes e' Hq).
Qed.

Lemma find_mime_parts_exn target_mimes (v : pyval) :
  (forall e, find_mime_parts v target_mimes = Raise e ->
             e = AttributeError \/ e = TypeError)
  /\ (forall d e, v = PDict d ->
        nested_parts (fun x => find_mime_parts x target_mimes) d = Raise e ->
        e = AttributeError \/ e = TypeError).
Proof.
  induction v as [| b | z | s | items IH | es IH] using pyval_ind;
    (split; [intros e Hf | intros d e Hd Hf; try discriminate]);
    try rewrite find_mime_parts_eq in Hf.
  - discriminate.
  - destruct b; simpl in Hf; [right; congruence|discriminate].
  - destruct (negb (truthy (PInt z))); [discriminate|right; congruence].
  - destruct s; simpl in Hf; [discriminate|left; congruence].
  - destruct items as [|p items]; [discriminate|].
    cbn [truthy negb] in Hf.
    eapply walk_parts_exn; [|exact Hf].
    eapply Forall_impl; [|exact IH]. intros part [_ H]. exact H.
  - destruct es; simpl in Hf; [discriminate|left; congruence].
  - injection Hd as <-. rewrite nested_parts_eq in Hf.
    destruct (dict_get "parts" es) as [v|] eqn:Hget; [|discriminate].
    destruct (dict_get_In _ _ _ Hget) as [k Hin].
    destruct (proj1 (Forall_forall _ _) IH _ Hin) as [Hv _].
    exact (Hv e Hf).
Qed.

(** The walk up to a part that follows parts searched without
    exception. *)
Lemma find_mime_parts_after target_mimes before part after found_before :
  find_mime_parts (PList before) target_mimes = Ok found_before ->
  find_mime_parts (PList (before ++ part :: after)) target_mimes
  = walk_parts (fun v => find_mime_parts v target_mimes) target_mimes
      (part :: after) found_before.
Proof.
  rewrite !find_mime_parts_PList, walk_parts_app. now intros ->.
Qed.

(** ** Failing messages *)

Section Failures.

Variable c : collaborators.
Variable gmail_query : pyval.
Variable target_mimes : list pystr.

(** A message that fails in one of the three ways logs the line of its
    failure, closes its segment with the handler's line or the "Skipping"
    line, and leaves no record. *)
Lemma message_failure_effect msg_count total message msg_id line :
  subscript message "id" = Ok msg_id ->
  message_failure c gmail_query target_mimes msg_id line ->
  In line (message_log c gmail_query target_mimes msg_count total message)
  /\ (In (LogSkipping msg_id)
        (message_log c gmail_query target_mimes msg_count total message)
      \/ exists e, line = LogUnexpected msg_id e)
  /\ message_records c gmail_query target_mimes message = [].
Proof.
  intros Hid Hfail.
  destruct Hfail as [e Hraise
                    | s d pd others att_id status Hread Hatt Hget
                    | s d pd others att_id payload e Hread Hatt Hfetch Hne
                        Hpdf Hext].
  - destruct (body_raises_effect c gmail_query target_mimes msg_count total
                message msg_id e Hid Hraise) as [[middle Hlog] Hnone].
    split; [|split; [right; now exists e|exact Hnone]].
    rewrite Hlog. right. apply in_or_app. right. now left.
  - pose proof (get_attachment_data_cases c msg_id att_id) as E.
    rewrite Hget in E. injection E as Hf Hl.
    assert (forall n t,
              process_message c gmail_query target_mimes n t message
                empty_state
              = (Ok tt,
                 mk_state
                   [LogProcessing n t msg_id;
                    LogFoundAttachment (filename_of pd)
                      (get_or_none "mimeType" pd);
                    LogFetchFailed att_id (HttpError status);
                    LogSkipping msg_id] [])) as Hrun.
    { intros n t.
      rewrite (process_message_first c gmail_query target_mimes n t message
                 msg_id s d pd others att_id empty_state Hid Hread Hatt).
      cbv zeta. rewrite Hf, Hl. reflexivity. }
    unfold message_log, message_records. rewrite !Hrun. simpl.
    split; [tauto|]. split; [left; tauto|reflexivity].
  - assert (bytes_truthy (Some payload) = true) as Ht
        by (destruct payload; [congruence|reflexivity]).
    assert (forall n t,
              process_message c gmail_query target_mimes n t message
                empty_state
              = (Ok tt,
                 mk_state
                   [LogProcessing n t msg_id;
                    LogFoundAttachment (filename_of pd)
                      (get_or_none "mimeType" pd);
                    LogPdfFailed e;
                    LogSkipping msg_id] [])) as Hrun.
    { intros n t.
      rewrite (process_message_first c gmail_query target_mimes n t message
                 msg_id s d pd others att_id empty_state Hid Hread Hatt).
      cbv zeta. rewrite Hfetch, Ht, Hpdf. simpl andb. cbv iota.
      simpl the_bytes. unfold extract_pdf_text. rewrite Hext. simpl rbind.
      rewrite (fetched_Some_log c msg_id att_id payload Hfetch).
      reflexivity. }
    unfold message_log, message_records. rewrite !Hrun. simpl.
    split; [tauto|]. split; [left; tauto|reflexivity].
Qed.

End Failures.

(** The loop over a concatenation. *)
Lemma process_from_app (c : collaborators) (gmail_query : pyval)
  (target_mimes : list pystr) (total msg_count : nat)
  (a b : list pyval) (st : state) :
  process_from c gmail_query target_mimes total msg_count (a ++ b) st
  = match process_from c gmail_query target_mimes total msg_count a st with
    | (Ok _, st1) =>
        process_from c gmail_query target_mimes total
          (msg_count + List.length a) b st1
    | (Raise e, st1) => (Raise e, st1)
    end.
Proof.
  revert msg_count st. induction a as [|m a IH]; intros msg_count st; simpl.
  - unfold ret. now rewrite Nat.add_0_r.
  - unfold bind.
    destruct (process_message c gmail_query target_mimes msg_count total m st)
      as [[[]|e] st1]; [|reflexivity].
    rewrite IH. now rewrite Nat.add_succ_r.
Qed.

(** ** The part tree walker returns the qualifying parts in pre-order *)

(** C1: for every list of well-formed message parts and every allow-list,
    [find_mime_parts] returns exactly the parts of the trees, at any depth,
    whose ['mimeType'] is in the allow-list and whose body carries a
    non-empty ['attachmentId'], in depth-first pre-order; no part without an
    attachment reference is in the result, whatever its media type. *)
Theorem find_mime_parts_preorder (target_mimes : list pystr)
  (parts : list pyval) :
  Forall (fun part => well_formed_part part = true) parts ->
  exists found,
    find_mime_parts (PList parts) target_mimes = Ok found
    /\ found = filter (qualifies target_mimes) (flat_map preorder parts)
    /\ (forall part, In part found ->
          In part (flat_map preorder parts)
          /\ mime_allowed target_mimes part = true
          /\ has_attachment_id part = true)
    /\ (forall part, In part (flat_map preorder parts) ->
          has_attachment_id part = false -> ~ In part found).
Proof.
  intros Hwf. eexists. split; [|split; [reflexivity|]].
  - apply (proj1 (find_mime_parts_well_formed target_mimes (PList parts))).
    unfold well_formed_parts. apply orb_true_iff. right.
    apply forallb_forall. intros p Hp.
    exact (proj1 (Forall_forall _ _) Hwf p Hp).
  - split.
    + intros part Hin. apply filter_In in Hin as [Hin Hq].
      apply andb_true_iff in Hq as [Hm Ha]. auto.
    + intros part _ Hno Hin. apply filter_In in Hin as [_ Hq].
      apply andb_true_iff in Hq as [_ Ha]. congruence.
Qed.

(** The theorem at a nested sample: the outer attachment comes before the
    attachment nested in it, the inline PDF and the text body are left out. *)
Lemma find_mime_parts_preorder_witness :
  find_mime_parts (PList Sample.nested_parts_list) [Sample.pdf]
  = Ok [Sample.outer_pdf;
        Sample.attachment Sample.pdf "inner.pdf" "att-2";
        Sample.attachment Sample.pdf "last.pdf" "att-3"].
Proof.
  destruct (find_mime_parts_preorder [Sample.pdf] Sample.nested_parts_list)
    as (found & Hfound & Heq & _).
  - repeat constructor.
  - rewrite Hfound, Heq. reflexivity.
Defined.

(** ** The walker on empty, absent and malformed input *)

(** A part whose media type matches and whose ['body'] is [None]: the walker
    raises on it. *)
Example find_mime_parts_raises_on_null_body :
  find_mime_parts
    (PList [PDict [(str_of_string "mimeType", PStr "application/pdf");
                   (str_of_string "body", PNone)]])
    [str_of_string "application/pdf"]
  = Raise AttributeError.
Proof. reflexivity. Qed.

(** A part list that holds a string instead of a part. *)
Example find_mime_parts_raises_on_string_part :
  find_mime_parts (PList [PStr "text/plain"]) [] = Raise AttributeError.
Proof. reflexivity. Qed.

(** A malformed part that is neither first nor at the top: a string nested
    in the ['parts'] of the second part. *)
Example find_mime_parts_raises_on_nested_string :
  find_mime_parts
    (PList [Sample.text_part; Sample.multipart [PStr "text/plain"]])
    [Sample.pdf]
  = Raise AttributeError.
Proof. reflexivity. Qed.

(** C6, as amended: [find_mime_parts] returns the empty sequence on an empty
    or absent part list ([None], [[]], any false value); it does not raise on
    well-formed parts, where a missing ['mimeType'], ['body'],
    ['attachmentId'] or ['parts'] means "no match"; on malformed structure
    it raises [AttributeError] or [TypeError] and nothing else:
    [AttributeError] at a part that is not a dict and at a body that is not
    a dict on a part whose media type matches, wherever the walk meets them
    (after parts searched without exception; an exception of the nested
    call on a part's ['parts'] propagates), and for a non-empty dict or
    string given as part list; [TypeError] for a number given as part list.
    In [main] the per-message handler catches the exception: it is logged
    with the message identifier and the message is dropped. *)
Theorem find_mime_parts_total_on_well_formed (target_mimes : list pystr) :
  (forall parts, truthy parts = false ->
                 find_mime_parts parts target_mimes = Ok [])
  /\ (forall parts, well_formed_parts parts = true ->
        exists found, find_mime_parts parts target_mimes = Ok found)
  /\ (forall d,
        dict_get "mimeType" d = None \/ dict_get "body" d = None
        \/ (exists body, dict_get "body" d = Some (PDict body)
                         /\ dict_get "attachmentId" body = None) ->
        dict_get "parts" d = None ->
        find_mime_parts (PList [PDict d]) target_mimes = Ok [])
  /\ (forall before part after found_before,
        find_mime_parts (PList before) target_mimes = Ok found_before ->
        (forall d, part <> PDict d) ->
        find_mime_parts (PList (before ++ part :: after)) target_mimes
        = Raise AttributeError)
  /\ (forall before d after found_before body,
        find_mime_parts (PList before) target_mimes = Ok found_before ->
        mime_in (get_or_none "mimeType" d) target_mimes = true ->
        dict_get "body" d = Some body ->
        (forall b, body <> PDict b) ->
        find_mime_parts (PList (before ++ PDict d :: after)) target_mimes
        = Raise AttributeError)
  /\ (forall before d after found_before q nested e,
        find_mime_parts (PList before) target_mimes = Ok found_before ->
        part_matches d target_mimes = Ok q ->
        dict_get "parts" d = Some nested ->
        find_mime_parts nested target_mimes = Raise e ->
        find_mime_parts (PList (before ++ PDict d :: after)) target_mimes
        = Raise e)
  /\ (forall parts,
        truthy parts = true ->
        (forall items, parts <> PList items) ->
        find_mime_parts parts target_mimes
        = match parts with
          | PDict _ | PStr _ => Raise AttributeError
          | _ => Raise TypeError
          end)
  /\ (forall parts e,
        find_mime_parts parts target_mimes = Raise e ->
        e = AttributeError \/ e = TypeError)
  /\ (forall c gmail_query msg_count total message msg_id msg payload hs
             items headers all_parts e st,
        subscript message "id" = Ok msg_id ->
        messages_get c msg_id = Ok msg ->
        subscript msg "payload" = Ok payload ->
        subscript payload "headers" = Ok hs ->
        py_iter hs = Ok items ->
        headers_dict items = Ok headers ->
        all_parts_of payload = Ok all_parts ->
        find_mime_parts all_parts target_mimes = Raise e ->
        process_message c gmail_query target_mimes msg_count total message st
        = (Ok tt,
           mk_state
             (log st ++ [LogProcessing msg_count total msg_id;
                         LogUnexpected msg_id e])
             (dataset st))).
Proof.
  split; [|split; [|split; [|split; [|split; [|split; [|split; [|split]]]]]]].
  - intros parts Hf. rewrite find_mime_parts_eq, Hf. reflexivity.
  - intros parts Hwf. eexists.
    apply (proj1 (find_mime_parts_well_formed target_mimes parts) Hwf).
  - intros d Hmiss Hparts. rewrite find_mime_parts_eq. cbn [truthy negb].
    simpl walk_parts. rewrite nested_parts_eq, Hparts.
    assert (part_matches d target_mimes = Ok false) as ->; [|reflexivity].
    unfold part_matches, get_or_none, get_or.
    destruct Hmiss as [-> | [-> | (body & -> & Hb)]].
    + reflexivity.
    + now destruct (mime_in _ _).
    + rewrite Hb. now destruct (mime_in _ _).
  - intros before part after fb Hb Hnd.
    rewrite (find_mime_parts_after target_mimes before part after fb Hb).
    simpl. destruct part; try reflexivity. now destruct (Hnd entries).
  - intros before d after fb body Hb Hmime Hbody Hnd.
    rewrite (find_mime_parts_after target_mimes before (PDict d) after fb Hb).
    simpl. unfold part_matches, get_or. rewrite Hmime, Hbody.
    destruct body; try reflexivity. now destruct (Hnd entries).
  - intros before d after fb q nested e Hb Hq Hparts He.
    rewrite (find_mime_parts_after target_mimes before (PDict d) after fb Hb).
    simpl. rewrite Hq. simpl rbind. rewrite nested_parts_eq, Hparts, He.
    reflexivity.
  - intros parts Ht Hnl. rewrite find_mime_parts_eq, Ht. simpl negb.
    cbv iota. destruct parts; try reflexivity. now destruct (Hnl items).
  - intros parts e. apply (proj1 (find_mime_parts_exn target_mimes parts)).
  - intros c gmail_query msg_count total message msg_id msg payload hs items
      headers all_parts e st Hid Hmsg Hp Hh Hi Hd Ha Hf.
    assert (read_message c target_mimes msg_id = Raise e) as Hread.
    { unfold read_message. rewrite Hmsg. simpl rbind. rewrite Hp.
      simpl rbind. rewrite Hh. simpl rbind. rewrite Hi. simpl rbind.
      rewrite Hd. simpl rbind. rewrite Ha. simpl rbind. now rewrite Hf. }
    rewrite (process_message_run c gmail_query target_mimes msg_count total
               message msg_id st Hid).
    rewrite message_body_run, extract_stage_run, Hread.
    rewrite add_log_add_log. reflexivity.
Qed.

(** ** The attachment fetcher *)

(** A timeout of the transport is not an [HttpError]: the fetcher does not
    return [None] on it, it raises, and logs nothing. *)
Example get_attachment_data_propagates_timeout :
  attachments_get Sample.gmail (PStr "m10") (PStr "att-slow")
  = Raise (OtherException "TimeoutError")
  /\ get_attachment_data Sample.gmail (PStr "m10") (PStr "att-slow")
       empty_state
     = (Raise (OtherException "TimeoutError"), empty_state).
Proof. split; reflexivity. Qed.

(** C7, as amended: an [HttpError] of the attachment call makes
    [get_attachment_data] log an error and return [None]; any other
    exception of the call propagates to the caller with nothing logged;
    when the call succeeds with a non-empty ['data'] string, the result is
    the URL-safe base64 decoding of that string; when ['data'] is missing or
    empty, the result is [None] and nothing is logged.  In [main] neither
    failure is fatal: after an [HttpError] the message is skipped, and the
    propagated exception is caught by the per-message handler, which logs
    it with the message identifier; in both cases the iteration returns
    normally and the dataset is unchanged. *)
Theorem get_attachment_data_outcomes (c : collaborators)
  (msg_id att_id : pyval) (st : state) :
  (forall status,
     attachments_get c msg_id att_id = Raise (HttpError status) ->
     get_attachment_data c msg_id att_id st
     = (Ok None, add_log st [LogFetchFailed att_id (HttpError status)])
     /\ level_of (LogFetchFailed att_id (HttpError status)) = ERROR)
  /\ (forall e,
        attachments_get c msg_id att_id = Raise e ->
        is_HttpError e = false ->
        get_attachment_data c msg_id att_id st = (Raise e, st))
  /\ (forall d data decoded,
        attachments_get c msg_id att_id = Ok (PDict d) ->
        dict_get "data" d = Some (PStr data) -> data <> [] ->
        urlsafe_b64decode c data = Ok decoded ->
        get_attachment_data c msg_id att_id st = (Ok (Some decoded), st))
  /\ (forall d,
        attachments_get c msg_id att_id = Ok (PDict d) ->
        truthy (get_or_none "data" d) = false ->
        get_attachment_data c msg_id att_id st = (Ok None, st))
  /\ (forall gmail_query target_mimes msg_count total message s d pd others,
        subscript message "id" = Ok msg_id ->
        read_message c target_mimes msg_id = Ok (s, d, PDict pd :: others) ->
        attachment_id_of (PDict pd) = Ok att_id ->
        let found :=
          [LogProcessing msg_count total msg_id;
           LogFoundAttachment (filename_of pd) (get_or_none "mimeType" pd)] in
        (forall status,
           attachments_get c msg_id att_id = Raise (HttpError status) ->
           process_message c gmail_query target_mimes msg_count total
             message st
           = (Ok tt,
              mk_state
                (log st ++ found
                 ++ [LogFetchFailed att_id (HttpError status);
                     LogSkipping msg_id])
                (dataset st)))
        /\ (forall e,
              attachments_get c msg_id att_id = Raise e ->
              is_HttpError e = false ->
              process_message c gmail_query target_mimes msg_count total
                message st
              = (Ok tt,
                 mk_state (log st ++ found ++ [LogUnexpected msg_id e])
                   (dataset st)))).
Proof.
  pose proof (get_attachment_data_cases c msg_id att_id) as E.
  split; [|split; [|split; [|split]]];
    try rewrite get_attachment_data_run.
  - intros status H. rewrite H in E. injection E as -> ->. now split.
  - intros e He Hne. rewrite He in E.
    destruct e; try discriminate Hne; injection E as -> ->;
      now rewrite add_log_nil.
  - intros d data decoded Hatt Hdata Hne Hdec. rewrite Hatt in E.
    unfold get_or_none in E. rewrite Hdata in E.
    destruct data as [|ch data]; [congruence|]. simpl truthy in E.
    cbv iota in E. rewrite Hdec in E. injection E as -> ->.
    now rewrite add_log_nil.
  - intros d Hatt Hfalse. rewrite Hatt, Hfalse in E.
    injection E as -> ->. now rewrite add_log_nil.
  - intros gmail_query target_mimes msg_count total message s d pd others
      Hid Hread Hatt found.
    pose proof (process_message_first c gmail_query target_mimes msg_count
                  total message msg_id s d pd others att_id st Hid Hread Hatt)
      as Hrun.
    cbv zeta in Hrun. split.
    + intros status H. rewrite H in E. injection E as Hf Hl.
      rewrite Hrun, Hf, Hl. simpl. unfold add_log. simpl.
      rewrite <- !app_assoc. reflexivity.
    + intros e He Hne. rewrite He in E.
      destruct e; try discriminate Hne; injection E as Hf Hl;
        rewrite Hrun, Hf, Hl; unfold add_log; simpl;
        rewrite <- !app_assoc; reflexivity.
Qed.

(** ** The placeholder for attachments that are not PDF *)

(** A Word attachment whose data decodes to zero bytes: the bytes were
    fetched, and no text is stored; the message is skipped. *)
Example empty_payload_stores_nothing :
  fetched Sample.gmail_blank (PStr "m3") (PStr "att-9") = Ok (Some [])
  /\ process_message Sample.gmail_blank Sample.query Sample.mimes 1 1
       (Sample.candidate "m3") empty_state
     = (Ok tt,
        mk_state
          [LogProcessing 1 1 (PStr "m3");
           LogFoundAttachment (PStr "notes.doc") (PStr Sample.docx);
           LogSkipping (PStr "m3")]
          []).
Proof. split; reflexivity. Qed.

(** C2, as amended: for every message whose first target attachment is
    not declared ['application/pdf'] and whose fetch returned bytes: when
    the payload is not empty, the extraction step yields exactly the text
    "Binary content of {filename} was not processed to text. Size: {N} bytes."
    with the part's file name and the byte length of the decoded payload,
    and that is the text of the record the dataset takes (a dataset that
    refuses it leaves the message without a record); when the payload is
    empty, no text is produced and the message is skipped without a
    record. *)
Theorem placeholder_text_stored (c : collaborators) (gmail_query : pyval)
  (target_mimes : list pystr) (msg_count total : nat)
  (message msg_id s d : pyval) (pd : pydict) (others : list pyval)
  (att_id : pyval) (payload : bytes) (st : state) :
  subscript message "id" = Ok msg_id ->
  read_message c target_mimes msg_id = Ok (s, d, PDict pd :: others) ->
  attachment_id_of (PDict pd) = Ok att_id ->
  fetched c msg_id att_id = Ok (Some payload) ->
  is_pdf (get_or_none "mimeType" pd) = false ->
  let found :=
    [LogProcessing msg_count total msg_id;
     LogFoundAttachment (filename_of pd) (get_or_none "mimeType" pd)] in
  (payload <> [] ->
   let text :=
     str_of_string "Binary content of "
     ++ format_value c (filename_of pd)
     ++ str_of_string " was not processed to text. Size: "
     ++ str_of_nat (List.length payload) ++ str_of_string " bytes." in
   let record :=
     mk_record msg_id s d (filename_of pd) gmail_query target_mimes text in
   extraction c target_mimes msg_id = Ok (s, d, (filename_of pd, Some text))
   /\ (forall name, filename_of pd = PStr name ->
                    format_value c (filename_of pd) = name)
   /\ process_message c gmail_query target_mimes msg_count total message st
      = match push_data c record with
        | Ok _ =>
            (Ok tt,
             mk_state
               (log st ++ found
                ++ [LogNotConverted (get_or_none "mimeType" pd);
                    LogPushed msg_id])
               (dataset st ++ [record]))
        | Raise e =>
            (Ok tt,
             mk_state
               (log st ++ found
                ++ [LogNotConverted (get_or_none "mimeType" pd);
                    LogUnexpected msg_id e])
               (dataset st))
        end)
  /\ (payload = [] ->
      extraction c target_mimes msg_id = Ok (s, d, (PNone, None))
      /\ process_message c gmail_query target_mimes msg_count total message st
         = (Ok tt,
            mk_state (log st ++ found ++ [LogSkipping msg_id]) (dataset st))).
Proof.
  intros Hid Hread Hatt Hfetch Hpdf found.
  pose proof (process_message_first c gmail_query target_mimes msg_count total
                message msg_id s d pd others att_id st Hid Hread Hatt) as Hrun.
  cbv zeta in Hrun. rewrite Hfetch, Hpdf in Hrun.
  rewrite (fetched_Some_log c msg_id att_id payload Hfetch) in Hrun.
  pose proof (extract_first_dict c msg_id pd att_id Hatt) as Hx.
  rewrite Hfetch, Hpdf in Hx.
  split.
  - intros Hne text record.
    assert (bytes_truthy (Some payload) = true) as Ht
        by (destruct payload; [congruence|reflexivity]).
    rewrite Ht in Hrun, Hx. simpl andb in Hrun, Hx. cbv iota in Hrun, Hx.
    split; [|split].
    + rewrite extraction_run, Hread, Hx. reflexivity.
    + intros name ->. reflexivity.
    + rewrite Hrun.
      rewrite (finish_text c gmail_query target_mimes msg_id s d
                 (filename_of pd) _ _ (placeholder_not_nil c _ _)).
      simpl the_bytes. fold text. unfold placeholder. fold text. fold record.
      destruct (push_data c record); unfold add_log; simpl;
        rewrite <- ?app_assoc; reflexivity.
  - intros ->. simpl in Hrun, Hx. split.
    + rewrite extraction_run, Hread, Hx. reflexivity.
    + rewrite Hrun. unfold add_log. simpl. rewrite <- app_assoc.
      reflexivity.
Qed.

(** The theorem at the sample message [m3], whose first attachment is a
    Word document of five bytes. *)
Lemma placeholder_text_stored_witness :
  extraction Sample.gmail Sample.mimes (PStr "m3")
  = Ok (PStr "Rate Confirmation for order #3", PStr "No Date",
        (PStr "notes.doc",
         Some (str_of_string
                 "Binary content of notes.doc was not processed to text. Size: 5 bytes."))).
Proof.
  refine (proj1 (proj1 (placeholder_text_stored Sample.gmail Sample.query
                          Sample.mimes 3 11 (Sample.candidate "m3")
                          (PStr "m3") _ _ _ _ (PStr "att-9")
                          [Byte.x68; Byte.x65; Byte.x6c; Byte.x6c; Byte.x6f]
                          empty_state eq_refl eq_refl eq_refl eq_refl eq_refl)
                   _)).
  discriminate.
Defined.

(** ** A PDF whose text extraction fails *)

(** C8: for every message whose chosen attachment is declared
    ['application/pdf'] and was fetched, an exception raised by the text
    extraction is caught by the inner [try]: it is logged as a warning, the
    message pushes no record and is logged as skipped (not as an unexpected
    error), the iteration returns normally and the loop goes on with the
    remaining messages. *)
Theorem pdf_extraction_failure_skips (c : collaborators)
  (gmail_query : pyval) (target_mimes : list pystr) (msg_count total : nat)
  (message msg_id s d : pyval) (pd : pydict) (others : list pyval)
  (att_id : pyval) (payload : bytes) (e : exn) (st : state) :
  subscript message "id" = Ok msg_id ->
  read_message c target_mimes msg_id = Ok (s, d, PDict pd :: others) ->
  attachment_id_of (PDict pd) = Ok att_id ->
  fetched c msg_id att_id = Ok (Some payload) ->
  payload <> [] ->
  is_pdf (get_or_none "mimeType" pd) = true ->
  extract_text_to_fp c payload = Raise e ->
  let st' :=
    mk_state
      (log st
       ++ [LogProcessing msg_count total msg_id;
           LogFoundAttachment (filename_of pd) (get_or_none "mimeType" pd);
           LogPdfFailed e;
           LogSkipping msg_id])
      (dataset st) in
  extract_pdf_text c payload = Raise e
  /\ level_of (LogPdfFailed e) = WARNING
  /\ process_message c gmail_query target_mimes msg_count total message st
     = (Ok tt, st')
  /\ (forall rest,
        process_from c gmail_query target_mimes total msg_count
          (message :: rest) st
        = process_from c gmail_query target_mimes total (S msg_count)
            rest st').
Proof.
  intros Hid Hread Hatt Hfetch Hne Hpdf Hext st'.
  assert (bytes_truthy (Some payload) = true) as Ht
      by (destruct payload; [congruence|reflexivity]).
  assert (extract_pdf_text c payload = Raise e) as Hpt
      by (unfold extract_pdf_text; now rewrite Hext).
  assert (process_message c gmail_query target_mimes msg_count total message
            st = (Ok tt, st')) as Hrun.
  { rewrite (process_message_first c gmail_query target_mimes msg_count total
               message msg_id s d pd others att_id st Hid Hread Hatt).
    cbv zeta. rewrite Hfetch, Ht, Hpdf. simpl andb. cbv iota.
    simpl the_bytes. rewrite Hpt.
    rewrite (fetched_Some_log c msg_id att_id payload Hfetch).
    rewrite add_log_add_log. reflexivity. }
  repeat split.
  - exact Hpt.
  - exact Hrun.
  - intros rest. simpl process_from. unfold bind. now rewrite Hrun.
Qed.

(** The theorem at the sample message [m8], whose PDF pdfminer rejects. *)
Lemma pdf_extraction_failure_skips_witness :
  snd (process_message Sample.gmail Sample.query Sample.mimes 1 2
         (Sample.candidate "m8") empty_state)
  = mk_state
      [LogProcessing 1 2 (PStr "m8");
       LogFoundAttachment (PStr "bad.pdf") (PStr Sample.pdf);
       LogPdfFailed (OtherException "PDFSyntaxError");
       LogSkipping (PStr "m8")]
      [].
Proof.
  refine (f_equal snd
            (proj1 (proj2 (proj2
               (pdf_extraction_failure_skips Sample.gmail Sample.query
                  Sample.mimes 1 2 (Sample.candidate "m8") (PStr "m8")
                  _ _ _ _ (PStr "att-bad")
                  [Byte.x68; Byte.x65; Byte.x6c; Byte.x6c; Byte.x6f]
                  (OtherException "PDFSyntaxError")
                  empty_state eq_refl eq_refl eq_refl eq_refl _ eq_refl
                  eq_refl))))).

  discriminate.
Defined.

(** ** The default attachment name *)

(** C10: for every message whose chosen attachment part has no ['filename']
    field, every record the message emits has the attachment name
    ["untitled_attachment"], and the placeholder text carries that name; a
    ['filename'] that is present as the empty string is kept as it is, in
    the record and in the placeholder. *)
Theorem default_attachment_name (c : collaborators) (gmail_query : pyval)
  (target_mimes : list pystr) (msg_count total : nat)
  (message msg_id s d : pyval) (pd : pydict) (others : list pyval)
  (st : state) :
  subscript message "id" = Ok msg_id ->
  read_message c target_mimes msg_id = Ok (s, d, PDict pd :: others) ->
  exists st' new,
    process_message c gmail_query target_mimes msg_count total message st
    = (Ok tt, st')
    /\ dataset st' = dataset st ++ new
    /\ (dict_get "filename" pd = None ->
        (forall r, In r new ->
                   attachmentName r = PStr "untitled_attachment")
        /\ (forall att_id payload,
              attachment_id_of (PDict pd) = Ok att_id ->
              fetched c msg_id att_id = Ok (Some payload) ->
              payload <> [] ->
              is_pdf (get_or_none "mimeType" pd) = false ->
              extraction c target_mimes msg_id
              = Ok (s, d,
                    (PStr "untitled_attachment",
                     Some (str_of_string
                             "Binary content of untitled_attachment was not processed to text. Size: "
                           ++ str_of_nat (List.length payload)
                           ++ str_of_string " bytes.")))))
    /\ (dict_get "filename" pd = Some (PStr []) ->
        (forall r, In r new -> attachmentName r = PStr [])
        /\ (forall att_id payload,
              attachment_id_of (PDict pd) = Ok att_id ->
              fetched c msg_id att_id = Ok (Some payload) ->
              payload <> [] ->
              is_pdf (get_or_none "mimeType" pd) = false ->
              extraction c target_mimes msg_id
              = Ok (s, d,
                    (PStr [],
                     Some (str_of_string
                             "Binary content of  was not processed to text. Size: "
                           ++ str_of_nat (List.length payload)
                           ++ str_of_string " bytes."))))).
Proof.
  intros Hid Hread.
  destruct (process_message_dataset c gmail_query target_mimes msg_count
              total message msg_id st Hid) as (st' & Hrun & Hds).
  exists st', (emitted c gmail_query target_mimes msg_id).
  split; [exact Hrun|]. split; [exact Hds|].
  assert (forall att_id payload,
            attachment_id_of (PDict pd) = Ok att_id ->
            fetched c msg_id att_id = Ok (Some payload) ->
            payload <> [] ->
            is_pdf (get_or_none "mimeType" pd) = false ->
            extraction c target_mimes msg_id
            = Ok (s, d, (filename_of pd,
                         Some (placeholder c (filename_of pd) payload))))
    as Hplace.
  { intros att_id payload Hatt Hfetch Hne Hpdf.
    rewrite extraction_run, Hread, (extract_first_dict c msg_id pd att_id Hatt).
    rewrite Hfetch, Hpdf.
    destruct payload; [congruence|reflexivity]. }
  split; intros Hname.
  - assert (filename_of pd = PStr "untitled_attachment") as Hf
        by (unfold filename_of, get_or; now rewrite Hname).
    split.
    + intros r Hin. rewrite <- Hf. eapply emitted_name; eassumption.
    + intros att_id payload Hatt Hfetch Hne Hpdf.
      rewrite (Hplace att_id payload Hatt Hfetch Hne Hpdf), Hf. reflexivity.
  - assert (filename_of pd = PStr []) as Hf
        by (unfold filename_of, get_or; now rewrite Hname).
    split.
    + intros r Hin. rewrite <- Hf. eapply emitted_name; eassumption.
    + intros att_id payload Hatt Hfetch Hne Hpdf.
      rewrite (Hplace att_id payload Hatt Hfetch Hne Hpdf), Hf. reflexivity.
Qed.

(** The theorem at the sample message [m4], whose attachment part has no
    ['filename']: the record it emits is named ["untitled_attachment"]. *)
Lemma default_attachment_name_witness :
  exists r,
    dataset (snd (process_message Sample.gmail Sample.query Sample.mimes 1 1
                    (Sample.candidate "m4") empty_state)) = [r]
    /\ attachmentName r = PStr "untitled_attachment"
    /\ attachmentContentText r
       = str_of_string
           "Binary content of untitled_attachment was not processed to text. Size: 5 bytes.".
Proof.
  destruct (default_attachment_name Sample.gmail Sample.query
              Sample.mimes 1 1 (Sample.candidate "m4") (PStr "m4")
              _ _ _ _ empty_state eq_refl eq_refl)
    as (st' & new & Hrun & Hds & Hnone & _).
  destruct (Hnone eq_refl) as [Hnames _].
  rewrite Hrun. simpl snd. rewrite Hds. simpl app.
  assert (process_message Sample.gmail Sample.query Sample.mimes 1 1
            (Sample.candidate "m4") empty_state
          = (Ok tt,
             mk_state
               (log (snd (process_message Sample.gmail Sample.query
                            Sample.mimes 1 1 (Sample.candidate "m4")
                            empty_state)))
               [mk_record (PStr "m4") (PStr "No name") (PStr "No Date")
                  (PStr "untitled_attachment") Sample.query Sample.mimes
                  (str_of_string
                     "Binary content of untitled_attachment was not processed to text. Size: 5 bytes.")]))
    as Hc by reflexivity.
  rewrite Hc in Hrun. injection Hrun as <-. simpl in Hds. subst new.
  eexists. split; [reflexivity|]. split; [|reflexivity].
  apply Hnames. now left.
Defined.

(** ** Only the first target attachment is processed *)

(** A message with two target attachments whose first fetch fails with an
    [HttpError]: no record is emitted, the second attachment is not tried. *)
Example two_attachments_no_record :
  read_message Sample.gmail Sample.mimes (PStr "m9")
  = Ok (PStr "Two with the first failing", PStr "No Date",
        [Sample.attachment Sample.pdf "gone.pdf" "att-down";
         Sample.attachment Sample.pdf "rate.pdf" "att-1"])
  /\ process_message Sample.gmail Sample.query Sample.mimes 1 1
       (Sample.candidate "m9") empty_state
     = (Ok tt,
        mk_state
          [LogProcessing 1 1 (PStr "m9");
           LogFoundAttachment (PStr "gone.pdf") (PStr Sample.pdf);
           LogFetchFailed (PStr "att-down") (HttpError 500);
           LogSkipping (PStr "m9")]
          []).
Proof. split; reflexivity. Qed.

(** C3, as amended: for every processed message whose discovered sequence
    of target attachments is not empty (two or more entries included), at
    most one record is emitted: exactly one when the first entry in
    traversal order yields a non-empty text and the dataset accepts the
    record, none otherwise; the record is built from the first entry alone,
    and the other entries are ignored: the attachment service is asked for
    the first entry's attachment only, so whatever it would answer for any
    other attachment, the outcome is the same. *)
Theorem first_attachment_only (c : collaborators) (gmail_query : pyval)
  (target_mimes : list pystr) (msg_count total : nat)
  (message msg_id s d part : pyval) (others : list pyval) (st : state) :
  subscript message "id" = Ok msg_id ->
  read_message c target_mimes msg_id = Ok (s, d, part :: others) ->
  exists pd att_id st',
    part = PDict pd
    /\ attachment_id_of part = Ok att_id
    /\ process_message c gmail_query target_mimes msg_count total message st
       = (Ok tt, st')
    /\ dataset st'
       = dataset st
         ++ match extract_first c msg_id part with
            | Ok (fname, Some (ch :: text)) =>
                match push_data c
                        (mk_record msg_id s d fname gmail_query target_mimes
                           (ch :: text)) with
                | Ok _ =>
                    [mk_record msg_id s d fname gmail_query target_mimes
                       (ch :: text)]
                | Raise _ => []
                end
            | _ => []
            end
    /\ (forall g,
          g msg_id att_id = attachments_get c msg_id att_id ->
          process_message (with_attachments c g) gmail_query target_mimes
            msg_count total message st
          = (Ok tt, st')).
Proof.
  intros Hid Hread.
  destruct (read_message_first c target_mimes msg_id s d part others Hread)
    as (pd & att_id & -> & Hatt).
  destruct (process_message_dataset c gmail_query target_mimes msg_count
              total message msg_id st Hid) as (st' & Hrun & Hds).
  exists pd, att_id, st'.
  split; [reflexivity|]. split; [exact Hatt|]. split; [exact Hrun|]. split.
  - rewrite Hds. f_equal. unfold emitted.
    rewrite extraction_run, Hread.
    destruct (extract_first c msg_id (PDict pd)) as [[fname text]|e];
      [|reflexivity].
    simpl. destruct text as [[|ch text]|]; reflexivity.
  - intros g Hg.
    now rewrite (process_message_with_attachments c gmail_query target_mimes
                   g msg_count total message msg_id s d pd others att_id st
                   Hid Hread Hatt Hg).
Qed.

(** The theorem at the sample message [m3], which has a Word document and
    then a PDF: the one record is the Word document's. *)
Lemma first_attachment_only_witness :
  dataset (snd (process_message Sample.gmail Sample.query Sample.mimes 1 1
                  (Sample.candidate "m3") empty_state))
  = [mk_record (PStr "m3") (PStr "Rate Confirmation for order #3")
       (PStr "No Date") (PStr "notes.doc") Sample.query Sample.mimes
       (str_of_string
          "Binary content of notes.doc was not processed to text. Size: 5 bytes.")].
Proof.
  destruct (first_attachment_only Sample.gmail Sample.query
              Sample.mimes 1 1 (Sample.candidate "m3") (PStr "m3")
              (PStr "Rate Confirmation for order #3") (PStr "No Date")
              (Sample.attachment Sample.docx "notes.doc" "att-9")
              [Sample.attachment Sample.pdf "second.pdf" "att-1"]
              empty_state eq_refl eq_refl)
    as (pd & att_id & st' & _ & _ & Hrun & Hds & _).
  rewrite Hrun. simpl snd. rewrite Hds. reflexivity.
Defined.

(** ** A record is pushed exactly out of a non-empty text *)

Lemma strip_nil_not_truthy (raw : pystr) :
  strip raw = [] -> text_truthy (Some (strip raw)) = false.
Proof. now intros ->. Qed.

(** C4: for every processed message, a record goes to the dataset only when
    the extraction step produced a non-empty text (extracted text or
    placeholder), and then it does, once, whenever the dataset accepts it;
    no record has an empty text.  In particular no record is emitted when
    the message could not be read, when it has no target attachment, when
    the fetch gave nothing or raised, when the PDF extraction raised, or
    when the trimmed text of the PDF is empty. *)
Theorem record_iff_text (c : collaborators) (gmail_query : pyval)
  (target_mimes : list pystr) (msg_count total : nat)
  (message msg_id : pyval) (st : state) :
  subscript message "id" = Ok msg_id ->
  exists st',
    process_message c gmail_query target_mimes msg_count total message st
    = (Ok tt, st')
    /\ (dataset st' = dataset st
        \/ exists s d fname text,
             extraction c target_mimes msg_id = Ok (s, d, (fname, Some text))
             /\ text <> []
             /\ dataset st'
                = dataset st
                  ++ [mk_record msg_id s d fname gmail_query target_mimes
                        text])
    /\ (forall s d fname text,
          extraction c target_mimes msg_id = Ok (s, d, (fname, Some text)) ->
          text <> [] ->
          push_data c
            (mk_record msg_id s d fname gmail_query target_mimes text)
          = Ok tt ->
          dataset st'
          = dataset st
            ++ [mk_record msg_id s d fname gmail_query target_mimes text])
    /\ (forall r, In r (dataset st') ->
                  In r (dataset st) \/ attachmentContentText r <> [])
    /\ (forall e, read_message c target_mimes msg_id = Raise e ->
                  dataset st' = dataset st)
    /\ (forall s d, read_message c target_mimes msg_id = Ok (s, d, []) ->
                    dataset st' = dataset st)
    /\ (forall s d part others att_id,
          read_message c target_mimes msg_id = Ok (s, d, part :: others) ->
          attachment_id_of part = Ok att_id ->
          fetched c msg_id att_id = Ok None
          \/ (exists e, fetched c msg_id att_id = Raise e) ->
          dataset st' = dataset st)
    /\ (forall s d pd others att_id payload,
          read_message c target_mimes msg_id = Ok (s, d, PDict pd :: others) ->
          attachment_id_of (PDict pd) = Ok att_id ->
          fetched c msg_id att_id = Ok (Some payload) ->
          is_pdf (get_or_none "mimeType" pd) = true ->
          (exists e, extract_text_to_fp c payload = Raise e)
          \/ (exists raw, extract_text_to_fp c payload = Ok raw
                          /\ strip raw = []) ->
          dataset st' = dataset st).
Proof.
  intros Hid.
  destruct (process_message_dataset c gmail_query target_mimes msg_count
              total message msg_id st Hid) as (st' & Hrun & Hds).
  exists st'. split; [exact Hrun|].
  assert (emitted c gmail_query target_mimes msg_id = [] ->
          dataset st' = dataset st) as Hnone
      by (intros E; now rewrite Hds, E, app_nil_r).
  split; [|split; [|split; [|split; [|split; [|split]]]]].
  - destruct (emitted_cases c gmail_query target_mimes msg_id)
      as [E | (s & d & fname & text & Hex & Hne & _ & E)].
    + left. exact (Hnone E).
    + right. exists s, d, fname, text. rewrite Hds, E. now repeat split.
  - intros s d fname text Hex Hne Hpush.
    now rewrite Hds, (emitted_pushed c gmail_query target_mimes msg_id s d
                       fname text Hex Hne Hpush).
  - intros r Hin. rewrite Hds in Hin. apply in_app_or in Hin as [Hin|Hin];
      [now left|right].
    destruct (emitted_cases c gmail_query target_mimes msg_id)
      as [E | (s & d & fname & text & _ & Hne & _ & E)];
      rewrite E in Hin; [destruct Hin|].
    destruct Hin as [<-|[]]. exact Hne.
  - intros e Hread. apply Hnone, (emitted_raise c gmail_query target_mimes msg_id e).
    now rewrite extraction_run, Hread.
  - intros s d Hread. apply Hnone.
    apply (emitted_no_text c gmail_query target_mimes msg_id s d
               (PNone) (None)); [|reflexivity].
    now rewrite extraction_run, Hread.
  - intros s d part others att_id Hread Hatt Hfetch. apply Hnone.
    destruct part as [| | | | |pd]; try discriminate Hatt.
    pose proof (extract_first_dict c msg_id pd att_id Hatt) as Hx.
    destruct Hfetch as [Hf | [e Hf]]; rewrite Hf in Hx.
    + apply (emitted_no_text c gmail_query target_mimes msg_id s d
               (PNone) (None)); [|reflexivity].
      rewrite extraction_run, Hread, Hx. reflexivity.
    + apply (emitted_raise c gmail_query target_mimes msg_id e).
      rewrite extraction_run, Hread, Hx. reflexivity.
  - intros s d pd others att_id payload Hread Hatt Hfetch Hpdf Hfail.
    apply Hnone.
    pose proof (extract_first_dict c msg_id pd att_id Hatt) as Hx.
    rewrite Hfetch, Hpdf in Hx. simpl the_bytes in Hx.
    destruct payload as [|b payload].
    + apply (emitted_no_text c gmail_query target_mimes msg_id s d
               (PNone) (None)); [|reflexivity].
      rewrite extraction_run, Hread, Hx. reflexivity.
    + simpl in Hx. unfold extract_pdf_text in Hx.
      destruct Hfail as [[e He] | (raw & Hraw & Hstrip)].
      * rewrite He in Hx. simpl in Hx.
        apply (emitted_no_text c gmail_query target_mimes msg_id s d
               (PNone) (None)); [|reflexivity].
        rewrite extraction_run, Hread, Hx. reflexivity.
      * rewrite Hraw in Hx. simpl in Hx.
        apply (emitted_no_text c gmail_query target_mimes msg_id s d
               (filename_of pd) (Some (strip raw)));
          [|now apply strip_nil_not_truthy].
        rewrite extraction_run, Hread, Hx. reflexivity.
Qed.

(** The theorem at the sample message [m1], whose PDF has text, and at
    [m7], whose PDF has only white space. *)
Lemma record_iff_text_witness :
  dataset (snd (process_message Sample.gmail Sample.query Sample.mimes 1 2
                  (Sample.candidate "m1") empty_state))
  = [mk_record (PStr "m1") (PStr "Rate Confirmation for order #1")
       (PStr "No Date") (PStr "rate.pdf") Sample.query Sample.mimes
       (str_of_string "Rate Confirmation 42")]
  /\ dataset (snd (process_message Sample.gmail Sample.query Sample.mimes 2 2
                     (Sample.candidate "m7") empty_state))
     = [].
Proof.
  split.
  - destruct (record_iff_text Sample.gmail Sample.query Sample.mimes 1 2
                (Sample.candidate "m1") (PStr "m1") empty_state eq_refl)
      as (st' & Hrun & _ & Hpush & _).
    rewrite Hrun. simpl snd.
    refine (Hpush _ _ (PStr "rate.pdf") _ eq_refl _ eq_refl). discriminate.
  - destruct (record_iff_text Sample.gmail Sample.query Sample.mimes 2 2
                (Sample.candidate "m7") (PStr "m7") empty_state eq_refl)
      as (st' & Hrun & _ & _ & _ & _ & _ & _ & Hblank).
    rewrite Hrun. simpl snd.
    refine (Hblank _ _ _ _ (PStr "att-blank") _ eq_refl eq_refl eq_refl
              eq_refl _).
    right. eexists. split; reflexivity.
Defined.

(** ** A failing message does not touch the others *)

(** A candidate without an identifier: line 135 raises outside the [try],
    nothing is logged, and the run ends; [m3], which emits a record on its
    own, is never processed. *)
Example missing_id_aborts_run :
  List.length (message_records Sample.gmail Sample.query Sample.mimes
                 (Sample.candidate "m3")) = 1
  /\ process_messages Sample.gmail Sample.query Sample.mimes
       [PDict [(str_of_string "threadId", PStr "t0")]; Sample.candidate "m3"]
       empty_state
     = (Raise (KeyError "id"), empty_state).
Proof. split; reflexivity. Qed.

(** C5, as amended: for every run and every message M with an identifier
    among candidates that have one, a failure of the processing of M is
    caught and M is dropped: an exception raised in the [try] body (message
    fetch, malformed message or part tree, any unexpected exception) is
    caught at the per-message boundary and logged with M's identifier; an
    [HttpError] of the attachment fetch and an exception of the PDF text
    extraction are caught by their own handlers, logged, and M is logged as
    skipped.  In each case M leaves no record, the run completes, and the
    dataset receives exactly the records the other messages emit on their
    own, the same as in the run without M.  The identifier itself is read
    outside the [try] (line 135): a candidate without one ends the run with
    that line's exception, after the candidates before it. *)
Theorem message_failure_isolated (c : collaborators) (gmail_query : pyval)
  (target_mimes : list pystr) (before after : list pyval)
  (message : pyval) (st : state) :
  Forall has_id before ->
  (forall msg_id line,
     Forall has_id after ->
     subscript message "id" = Ok msg_id ->
     message_failure c gmail_query target_mimes msg_id line ->
     exists st',
       process_messages c gmail_query target_mimes
         (before ++ message :: after) st = (Ok tt, st')
       /\ In line (log st')
       /\ (In (LogSkipping msg_id) (log st')
           \/ exists e, line = LogUnexpected msg_id e)
       /\ message_records c gmail_query target_mimes message = []
       /\ dataset st'
          = dataset st
            ++ flat_map (message_records c gmail_query target_mimes) before
            ++ flat_map (message_records c gmail_query target_mimes) after
       /\ dataset st'
          = dataset (snd (process_messages c gmail_query target_mimes
                            (before ++ after) st)))
  /\ (forall e,
        subscript message "id" = Raise e ->
        process_messages c gmail_query target_mimes
          (before ++ message :: after) st
        = (Raise e,
           mk_state
             (log st
              ++ run_log c gmail_query target_mimes
                   (List.length (before ++ message :: after)) 1 before)
             (dataset st
              ++ flat_map (message_records c gmail_query target_mimes)
                   before))).
Proof.
  intros Hb. split.
  - intros msg_id line Ha Hid Hfail.
    assert (Forall has_id (before ++ message :: after)) as Hall.
    { apply Forall_app. split; [exact Hb|].
      constructor; [now exists msg_id|exact Ha]. }
    assert (Forall has_id (before ++ after)) as Hrest
        by (apply Forall_app; now split).
    destruct (message_failure_effect c gmail_query target_mimes
                (1 + List.length before)
                (List.length (before ++ message :: after)) message msg_id
                line Hid Hfail) as (Hline & Hclose & Hnone).
    unfold process_messages.
    rewrite (process_from_run c gmail_query target_mimes _ 1 _ st Hall).
    rewrite (process_from_run c gmail_query target_mimes _ 1 _ st Hrest).
    eexists. split; [reflexivity|]. simpl log. simpl dataset. simpl snd.
    assert (forall l,
              In l (message_log c gmail_query target_mimes
                      (1 + List.length before)
                      (List.length (before ++ message :: after)) message) ->
              In l (log st
                    ++ run_log c gmail_query target_mimes
                         (List.length (before ++ message :: after)) 1
                         (before ++ message :: after))) as Hin.
    { intros l Hl. apply in_or_app. right. rewrite run_log_app.
      apply in_or_app. right. cbn [run_log]. apply in_or_app. now left. }
    split; [exact (Hin line Hline)|]. split.
    { destruct Hclose as [Hskip|He]; [left; exact (Hin _ Hskip)|now right]. }
    split; [exact Hnone|]. split.
    + rewrite flat_map_app. simpl flat_map. now rewrite Hnone.
    + rewrite !flat_map_app. simpl flat_map. now rewrite Hnone.
  - intros e Hid. unfold process_messages.
    rewrite process_from_app.
    rewrite (process_from_run c gmail_query target_mimes _ 1 before st Hb).
    simpl process_from. unfold bind at 1. unfold process_message.
    unfold bind at 1. unfold lift at 1. now rewrite Hid.
Qed.

(** The theorem at a sample run: [m9], whose attachment fetch fails with
    an [HttpError], sits between [m1] and [m3]; the dataset gets the records
    of [m1] and [m3]. *)
Lemma message_failure_isolated_witness :
  map messageId
    (dataset (snd (process_messages Sample.gmail Sample.query Sample.mimes
                     [Sample.candidate "m1"; Sample.candidate "m9";
                      Sample.candidate "m3"] empty_state)))
  = [PStr "m1"; PStr "m3"].
Proof.
  destruct (proj1 (message_failure_isolated Sample.gmail Sample.query
                     Sample.mimes [Sample.candidate "m1"]
                     [Sample.candidate "m3"] (Sample.candidate "m9")
                     empty_state
                     ltac:(repeat constructor; eexists; reflexivity))
              (PStr "m9") (LogFetchFailed (PStr "att-down") (HttpError 500)))
    as (st' & Hrun & _ & _ & _ & Hds & _).
  - repeat constructor; eexists; reflexivity.
  - reflexivity.
  - eapply fetch_http_error; reflexivity.
  - simpl app in Hrun. rewrite Hrun. simpl snd. rewrite Hds. reflexivity.
Defined.

(** ** Messages are processed one after the other *)

(** C9: for every run over candidates that carry an identifier, the run
    completes, and the messages are processed in the order of the candidate
    list, one at a time: the log is the sequence of the messages' own log
    segments in that order, each from its "Processing" line to its terminal
    line, and the dataset receives the messages' records in that order. *)
Theorem messages_processed_in_order (c : collaborators)
  (gmail_query : pyval) (target_mimes : list pystr)
  (messages : list pyval) (st : state) :
  Forall has_id messages ->
  process_messages c gmail_query target_mimes messages st
  = (Ok tt,
     mk_state
       (log st
        ++ run_log c gmail_query target_mimes (List.length messages) 1
             messages)
       (dataset st
        ++ flat_map (message_records c gmail_query target_mimes) messages))
  /\ (forall before message after,
        messages = before ++ message :: after ->
        exists msg_id middle last,
          subscript message "id" = Ok msg_id
          /\ terminal msg_id last
          /\ run_log c gmail_query target_mimes (List.length messages) 1
               messages
             = run_log c gmail_query target_mimes (List.length messages) 1
                 before
               ++ (LogProcessing (1 + List.length before)
                     (List.length messages) msg_id
                   :: middle ++ [last])
               ++ run_log c gmail_query target_mimes (List.length messages)
                    (2 + List.length before) after).
Proof.
  intros Hids. split.
  - apply process_from_run. exact Hids.
  - intros before message after Heq.
    assert (has_id message) as [msg_id Hid].
    { apply (proj1 (Forall_forall _ _) Hids). rewrite Heq.
      apply in_or_app. right. now left. }
    destruct (message_log_shape c gmail_query target_mimes
                (1 + List.length before) (List.length messages) message
                msg_id Hid) as (middle & last & Hterm & Hlog).
    exists msg_id, middle, last. split; [exact Hid|]. split; [exact Hterm|].
    rewrite Heq at 2. rewrite run_log_app. f_equal.
    cbn [run_log]. rewrite Hlog. reflexivity.
Qed.

(** The theorem at the three messages of the sample mailbox: a PDF with
    text, no attachment, a Word document. *)
Lemma messages_processed_in_order_witness :
  process_messages Sample.gmail Sample.query Sample.mimes
    [Sample.candidate "m1"; Sample.candidate "m2"; Sample.candidate "m3"]
    empty_state
  = (Ok tt,
     mk_state
       [LogProcessing 1 3 (PStr "m1");
        LogFoundAttachment (PStr "rate.pdf") (PStr Sample.pdf);
        LogExtracted 20;
        LogPushed (PStr "m1");
        LogProcessing 2 3 (PStr "m2");
        LogSkipping (PStr "m2");
        LogProcessing 3 3 (PStr "m3");
        LogFoundAttachment (PStr "notes.doc") (PStr Sample.docx);
        LogNotConverted (PStr Sample.docx);
        LogPushed (PStr "m3")]
       [mk_record (PStr "m1") (PStr "Rate Confirmation for order #1")
          (PStr "No Date") (PStr "rate.pdf") Sample.query Sample.mimes
          (str_of_string "Rate Confirmation 42");
        mk_record (PStr "m3") (PStr "Rate Confirmation for order #3")
          (PStr "No Date") (PStr "notes.doc") Sample.query Sample.mimes
          (str_of_string
             "Binary content of notes.doc was not processed to text. Size: 5 bytes.")]).
Proof.
  refine (proj1 (messages_processed_in_order Sample.gmail Sample.query
                   Sample.mimes
                   [Sample.candidate "m1"; Sample.candidate "m2";
                    Sample.candidate "m3"] empty_state _)).
  repeat constructor; eexists; reflexivity.
Defined.

(** * Further properties of the code *)

(** ** The walker on any input *)

(** X1: whatever the input, well-formed or not, when [find_mime_parts]
    returns, every part it returns is a dict whose ['mimeType'] is in the
    allow-list and on which [part['body']['attachmentId']] (line 160 of
    [main]) evaluates, without an exception, to a true value. *)
Theorem found_parts_have_attachment_id (parts : pyval)
  (target_mimes : list pystr) (found : list pyval) :
  find_mime_parts parts target_mimes = Ok found ->
  Forall (fun part =>
            exists d att_id,
              part = PDict d
              /\ mime_in (get_or_none "mimeType" d) target_mimes = true
              /\ attachment_id_of part = Ok att_id
              /\ truthy att_id = true) found.
Proof.
  intros Hfound.
  pose proof (proj1 (find_mime_parts_sound target_mimes parts) found Hfound)
    as Hm.
  eapply Forall_impl; [|exact Hm]. intros part Hpart.
  destruct (matched_attachment_id target_mimes part Hpart)
    as (att_id & Hatt & Htrue).
  destruct Hpart as (d & -> & Hq). exists d, att_id.
  repeat split; try assumption.
  unfold part_matches in Hq.
  destruct (mime_in (get_or_none "mimeType" d) target_mimes);
    [reflexivity|discriminate].
Qed.

(** The theorem at the nested sample: the first part found is the outer
    PDF, with the attachment reference ["att-1"]. *)
Lemma found_parts_have_attachment_id_witness :
  exists found,
    find_mime_parts (PList Sample.nested_parts_list) [Sample.pdf] = Ok found
    /\ Forall (fun part =>
                 exists d att_id,
                   part = PDict d
                   /\ mime_in (get_or_none "mimeType" d) [Sample.pdf] = true
                   /\ attachment_id_of part = Ok att_id
                   /\ truthy att_id = true) found.
Proof.
  eexists. split; [reflexivity|].
  apply (found_parts_have_attachment_id (PList Sample.nested_parts_list)
           [Sample.pdf]).
  reflexivity.
Defined.

(** X2: the walker treats siblings one after the other: on a list that is
    the concatenation of two lists, the result is the parts found in the
    first followed by the parts found in the second, and the exception, if
    any, is the first one met in that order. *)
Theorem find_mime_parts_app (a b : list pyval) (target_mimes : list pystr) :
  find_mime_parts (PList (a ++ b)) target_mimes
  = (found_a <- find_mime_parts (PList a) target_mimes ;;
     found_b <- find_mime_parts (PList b) target_mimes ;;
     Ok (found_a ++ found_b))%res.
Proof.
  rewrite !find_mime_parts_PList, walk_parts_app.
  destruct (walk_parts _ target_mimes a []) as [found_a|e]; simpl;
    [|reflexivity].
  rewrite walk_parts_acc. reflexivity.
Qed.

(** X3: a part without a ['parts'] key contributes itself or nothing: on
    a one-part list whose part has no ['parts'], the result is that part
    when the test of line 64 holds, the empty list when it does not, and
    the test's exception when it raises.  This is the case of a message
    without a ['parts'] list, whose payload line 150 wraps in a list. *)
Theorem find_mime_parts_single_part (pd : pydict) (target_mimes : list pystr) :
  dict_get "parts" pd = None ->
  all_parts_of (PDict pd) = Ok (PList [PDict pd])
  /\ find_mime_parts (PList [PDict pd]) target_mimes
     = (q <- part_matches pd target_mimes ;;
        Ok (if q then [PDict pd] else []))%res.
Proof.
  intros Hparts. split.
  - unfold all_parts_of. now rewrite Hparts.
  - rewrite find_mime_parts_PList. simpl walk_parts.
    rewrite nested_parts_eq, Hparts.
    destruct (part_matches pd target_mimes) as [[|]|e]; reflexivity.
Qed.

(** The theorem at a payload that is itself a PDF attachment. *)
Lemma find_mime_parts_single_part_witness :
  find_mime_parts
    (PList [Sample.attachment Sample.pdf "rate.pdf" "att-1"]) [Sample.pdf]
  = Ok [Sample.attachment Sample.pdf "rate.pdf" "att-1"].
Proof.
  refine (proj2 (find_mime_parts_single_part
                   [(str_of_string "mimeType", PStr Sample.pdf);
                    (str_of_string "filename", PStr "rate.pdf");
                    (str_of_string "body",
                     PDict [(str_of_string "attachmentId", PStr "att-1");
                            (str_of_string "size", PInt 4)])]
                   [Sample.pdf] eq_refl)).
Defined.

(** ** Trimming the extracted text *)

Lemma lstrip_split (s : pystr) :
  exists p, s = p ++ lstrip s /\ forallb is_space p = true.
Proof.
  induction s as [|ch s (p & Hs & Hp)]; simpl.
  - now exists [].
  - destruct (is_space ch) eqn:Hch.
    + exists (ch :: p). simpl. rewrite Hch, Hp. split; [now f_equal|reflexivity].
    + now exists [].
Qed.

Lemma lstrip_head (s : pystr) : starts_with_space (lstrip s) = false.
Proof.
  induction s as [|ch s IH]; simpl; [reflexivity|].
  destruct (is_space ch) eqn:Hch; [exact IH|]. simpl. exact Hch.
Qed.

Lemma lstrip_clean (s : pystr) :
  starts_with_space s = false -> lstrip s = s.
Proof. destruct s as [|ch s]; simpl; [reflexivity|]. now intros ->. Qed.

Lemma lstrip_blank (s : pystr) :
  forallb is_space s = true -> lstrip s = [].
Proof.
  induction s as [|ch s IH]; simpl; [reflexivity|].
  intros H. apply andb_true_iff in H as [-> Hs]. exact (IH Hs).
Qed.

Lemma forallb_rev {A} (f : A -> bool) (l : list A) :
  forallb f (rev l) = forallb f l.
Proof.
  induction l as [|x l IH]; simpl; [reflexivity|].
  rewrite forallb_app, IH. simpl. rewrite andb_true_r. apply andb_comm.
Qed.

Lemma strip_decompose (s : pystr) :
  exists p q,
    s = p ++ strip s ++ q
    /\ forallb is_space p = true
    /\ forallb is_space q = true
    /\ starts_with_space (strip s) = false
    /\ ends_with_space (strip s) = false.
Proof.
  destruct (lstrip_split s) as (p & Hs & Hp).
  destruct (lstrip_split (rev (lstrip s))) as (q & Hu & Hq).
  assert (lstrip s = strip s ++ rev q) as Hmid.
  { unfold strip. rewrite <- rev_app_distr, <- Hu. now rewrite rev_involutive. }
  exists p, (rev q). repeat split.
  - now rewrite <- Hmid.
  - exact Hp.
  - now rewrite forallb_rev.
  - pose proof (lstrip_head s) as Hhead. rewrite Hmid in Hhead.
    destruct (strip s); [reflexivity|exact Hhead].
  - unfold ends_with_space, strip. rewrite rev_involutive. apply lstrip_head.
Qed.

Lemma strip_clean (t : pystr) :
  starts_with_space t = false -> ends_with_space t = false -> strip t = t.
Proof.
  intros Hstart Hend. unfold strip.
  rewrite (lstrip_clean t Hstart), (lstrip_clean (rev t) Hend).
  apply rev_involutive.
Qed.

Lemma strip_nil_iff (s : pystr) :
  strip s = [] <-> forallb is_space s = true.
Proof.
  split.
  - intros Hnil. destruct (strip_decompose s) as (p & q & Hs & Hp & Hq & _).
    rewrite Hnil in Hs. rewrite Hs, forallb_app, Hp. exact Hq.
  - intros Hblank. unfold strip. now rewrite (lstrip_blank s Hblank).
Qed.

(** X4: [extract_pdf_text] raises exactly what pdfminer raises, and
    otherwise returns pdfminer's text with the white space at its ends
    removed: the result neither begins nor ends with white space, and it is
    empty exactly when pdfminer's text is white space only. *)
Theorem extract_pdf_text_trimmed (c : collaborators) (pdf_bytes : bytes) :
  (forall e, extract_text_to_fp c pdf_bytes = Raise e <->
             extract_pdf_text c pdf_bytes = Raise e)
  /\ (forall raw,
        extract_text_to_fp c pdf_bytes = Ok raw ->
        exists text p q,
          extract_pdf_text c pdf_bytes = Ok text
          /\ raw = p ++ text ++ q
          /\ forallb is_space p = true
          /\ forallb is_space q = true
          /\ starts_with_space text = false
          /\ ends_with_space text = false
          /\ (text = [] <-> forallb is_space raw = true)).
Proof.
  unfold extract_pdf_text. split.
  - intros e. destruct (extract_text_to_fp c pdf_bytes) as [raw|e']; simpl;
      split; congruence.
  - intros raw ->. simpl.
    destruct (strip_decompose raw) as (p & q & Hs & Hp & Hq & Hstart & Hend).
    exists (strip raw), p, q. repeat split; try assumption;
      apply (strip_nil_iff raw).
Qed.

(** The extractor on the sample PDF: the line feeds and the space around
    the text are gone. *)
Example extract_pdf_text_sample :
  extract_pdf_text Sample.gmail [Byte.x25; Byte.x50; Byte.x44; Byte.x46]
  = Ok (str_of_string "Rate Confirmation 42").
Proof. reflexivity. Qed.

(** ** The fetcher: what it logs and what it lets through *)

(** X5: [get_attachment_data] never touches the dataset and logs at most
    one line: the error line of its [except HttpError] handler, and then it
    returns [None]; when it returns a payload or raises, it has logged
    nothing. *)
Theorem get_attachment_data_log_discipline (c : collaborators)
  (msg_id att_id : pyval) (st : state) :
  exists r l,
    get_attachment_data c msg_id att_id st = (r, add_log st l)
    /\ (l = []
        \/ (r = Ok None
            /\ exists status,
                 l = [LogFetchFailed att_id (HttpError status)])).
Proof.
  exists (fetched c msg_id att_id), (fetch_log c msg_id att_id).
  split; [apply get_attachment_data_run|].
  pose proof (get_attachment_data_cases c msg_id att_id) as E.
  destruct (attachments_get c msg_id att_id) as [[| | | | |d]|e].
  1-5: injection E as _ ->; now left.
  - destruct (truthy (get_or_none "data" d)).
    + destruct (get_or_none "data" d);
        try (injection E as _ ->; now left).
      destruct (urlsafe_b64decode c s) as [b|e].
      * injection E as _ ->. now left.
      * destruct e; try (injection E as _ ->; now left).
        injection E as -> ->. right. split; [reflexivity|now exists status].
    + injection E as _ ->. now left.
  - destruct e; try (injection E as _ ->; now left).
    injection E as -> ->. right. split; [reflexivity|now exists status].
Qed.

(** X6: after a successful API call, what is wrong with the answer is not
    handled in [get_attachment_data]: an answer that is not a dict, or a
    ['data'] that is true but not a string, raises [AttributeError], and an
    exception of the base64 decoding other than [HttpError] propagates as
    it is; nothing is logged in any of these cases. *)
Theorem get_attachment_data_bad_answer (c : collaborators)
  (msg_id att_id : pyval) (st : state) :
  (forall att,
     attachments_get c msg_id att_id = Ok att ->
     (forall d, att <> PDict d) ->
     get_attachment_data c msg_id att_id st = (Raise AttributeError, st))
  /\ (forall d data,
        attachments_get c msg_id att_id = Ok (PDict d) ->
        dict_get "data" d = Some data ->
        truthy data = true ->
        (forall s, data <> PStr s) ->
        get_attachment_data c msg_id att_id st = (Raise AttributeError, st))
  /\ (forall d data e,
        attachments_get c msg_id att_id = Ok (PDict d) ->
        dict_get "data" d = Some (PStr data) ->
        data <> [] ->
        urlsafe_b64decode c data = Raise e ->
        is_HttpError e = false ->
        get_attachment_data c msg_id att_id st = (Raise e, st)).
Proof.
  rewrite get_attachment_data_run.
  pose proof (get_attachment_data_cases c msg_id att_id) as E.
  split; [|split].
  - intros att Hatt Hnd. rewrite Hatt in E.
    destruct att as [| | | | |d]; try (injection E as -> ->;
                                        now rewrite add_log_nil).
    now destruct (Hnd d).
  - intros d data Hatt Hdata Htrue Hns. rewrite Hatt in E.
    unfold get_or_none in E. rewrite Hdata, Htrue in E.
    destruct data; try (injection E as -> ->; now rewrite add_log_nil).
    now destruct (Hns s).
  - intros d data e Hatt Hdata Hne Hdec Hhttp. rewrite Hatt in E.
    unfold get_or_none in E. rewrite Hdata in E.
    destruct data as [|ch data]; [congruence|]. simpl truthy in E.
    cbv iota in E. rewrite Hdec in E.
    destruct e; try discriminate Hhttp; injection E as -> ->;
      now rewrite add_log_nil.
Qed.

(** The fetcher on the sample store: a payload, and an API error. *)
Example get_attachment_data_samples :
  get_attachment_data Sample.gmail (PStr "m1") (PStr "att-1") empty_state
  = (Ok (Some [Byte.x25; Byte.x50; Byte.x44; Byte.x46]), empty_state)
  /\ get_attachment_data Sample.gmail (PStr "m9") (PStr "att-down")
       empty_state
     = (Ok None,
        mk_state [LogFetchFailed (PStr "att-down") (HttpError 500)] []).
Proof. split; reflexivity. Qed.

(** ** Subject and date *)

Lemma headers_get_app key default (a b : list (pyval * pyval)) :
  headers_get key default (a ++ b)
  = headers_get key (headers_get key default a) b.
Proof.
  revert default. induction a as [|[k v] a IH]; intros default; simpl.
  - reflexivity.
  - apply IH.
Qed.

Lemma headers_get_absent key default (hs : list (pyval * pyval)) :
  Forall (fun kv => fst kv <> PStr key) hs ->
  headers_get key default hs = default.
Proof.
  induction 1 as [|[k v] hs Hk _ IH]; simpl; [reflexivity|].
  destruct k; try exact IH.
  destruct (str_eqb s key) eqn:E; [|exact IH].
  apply str_eqb_eq in E. subst s. now destruct Hk.
Qed.

(** The pairs line 145 stores are the names and values of the headers, in
    order. *)
Lemma headers_dict_pairs (items : list pyval) (pairs : list (pyval * pyval)) :
  headers_dict items = Ok pairs ->
  Forall2 (fun h kv => subscript h "name" = Ok (fst kv)
                       /\ subscript h "value" = Ok (snd kv)) items pairs.
Proof.
  revert pairs. induction items as [|h items IH]; simpl; intros pairs H.
  - injection H as <-. constructor.
  - destruct (subscript h "name") as [name|e] eqn:Hn; [|discriminate].
    simpl in H.
    destruct (subscript h "value") as [value|e] eqn:Hv; [|discriminate].
    simpl in H. destruct (hashable name); [|discriminate].
    destruct (headers_dict items) as [rest|e]; [|discriminate].
    simpl in H. injection H as <-. constructor; [now split|].
    now apply IH.
Qed.

(** X7: the subject and the date of a message are looked up by the exact
    header name: with no header of that name the default is used
    (["No Subject"], ["No Date"]), and with several headers of that name the
    value of the last one is taken. *)
Theorem header_lookup (key : pystr) (default : pyval)
  (items : list pyval) (pairs : list (pyval * pyval)) :
  headers_dict items = Ok pairs ->
  ((forall h, In h items -> subscript h "name" <> Ok (PStr key)) ->
   headers_get key default pairs = default)
  /\ (forall before h after value,
        items = before ++ h :: after ->
        subscript h "name" = Ok (PStr key) ->
        subscript h "value" = Ok value ->
        (forall h', In h' after -> subscript h' "name" <> Ok (PStr key)) ->
        headers_get key default pairs = value).
Proof.
  intros Hd. pose proof (headers_dict_pairs items pairs Hd) as Hp.
  assert (forall its ps,
            Forall2 (fun h kv => subscript h "name" = Ok (fst kv)
                                 /\ subscript h "value" = Ok (snd kv))
              its ps ->
            (forall h, In h its -> subscript h "name" <> Ok (PStr key)) ->
            Forall (fun kv => fst kv <> PStr key) ps) as Habs.
  { induction 1 as [|h kv its ps [Hn _] _ IH]; intros Hno; constructor.
    - intros Hk. apply (Hno h (or_introl eq_refl)). now rewrite Hn, Hk.
    - apply IH. intros h' Hin. apply Hno. now right. }
  split.
  - intros Hno. apply headers_get_absent. exact (Habs _ _ Hp Hno).
  - intros before h after value -> Hn Hv Hno.
    apply Forall2_app_inv_l in Hp as (pb & pa & _ & Hpa & ->).
    inversion Hpa as [|h0 kv its ps [Hn' Hv'] Hafter]; subst.
    rewrite headers_get_app. simpl.
    destruct kv as [k v]. simpl in Hn', Hv'.
    assert (k = PStr key) as -> by congruence.
    assert (v = value) as -> by congruence.
    rewrite str_eqb_refl. apply headers_get_absent.
    exact (Habs _ _ Hafter Hno).
Qed.

(** The theorem at three headers, two of them named ["Subject"]. *)
Lemma header_lookup_witness :
  headers_get "Subject" (PStr "No Subject")
    [(PStr "Subject", PStr "first"); (PStr "From", PStr "a@b");
     (PStr "Subject", PStr "second")]
  = PStr "second"
  /\ headers_get "Date" (PStr "No Date")
       [(PStr "Subject", PStr "first"); (PStr "From", PStr "a@b");
        (PStr "Subject", PStr "second")]
     = PStr "No Date".
Proof.
  pose proof (fun key default =>
                header_lookup key default
                  [Sample.header "Subject" "first";
                   Sample.header "From" "a@b";
                   Sample.header "Subject" "second"]
                  [(PStr "Subject", PStr "first"); (PStr "From", PStr "a@b");
                   (PStr "Subject", PStr "second")] eq_refl) as H.
  split.
  - refine (proj2 (H (str_of_string "Subject") (PStr "No Subject"))
              [Sample.header "Subject" "first"; Sample.header "From" "a@b"]
              (Sample.header "Subject" "second") [] (PStr "second")
              eq_refl eq_refl eq_refl _).
    intros h' [].
  - refine (proj1 (H (str_of_string "Date") (PStr "No Date")) _).
    intros h [<-|[<-|[<-|[]]]]; discriminate.
Defined.

(** ** The loop: unreadable messages, candidates without id, the sink *)

(** X8: a message that cannot be read is dropped with one error line and
    no record: the exception of the message fetch, the [KeyError] of a
    message without ['payload'], and the [KeyError] of a payload without
    ['headers'] (the headers are not optional) all reach the handler of
    line 204. *)
Theorem unreadable_message_dropped (c : collaborators) (gmail_query : pyval)
  (target_mimes : list pystr) (msg_count total : nat)
  (message msg_id : pyval) (st : state) :
  subscript message "id" = Ok msg_id ->
  (forall e,
     read_message c target_mimes msg_id = Raise e ->
     process_message c gmail_query target_mimes msg_count total message st
     = (Ok tt,
        mk_state
          (log st ++ [LogProcessing msg_count total msg_id;
                      LogUnexpected msg_id e])
          (dataset st)))
  /\ (forall e,
        messages_get c msg_id = Raise e ->
        read_message c target_mimes msg_id = Raise e)
  /\ (forall m,
        messages_get c msg_id = Ok (PDict m) ->
        dict_get "payload" m = None ->
        read_message c target_mimes msg_id = Raise (KeyError "payload"))
  /\ (forall m pd,
        messages_get c msg_id = Ok (PDict m) ->
        dict_get "payload" m = Some (PDict pd) ->
        dict_get "headers" pd = None ->
        read_message c target_mimes msg_id = Raise (KeyError "headers")).
Proof.
  intros Hid. split; [|split; [|split]].
  - intros e Hread.
    rewrite (process_message_run c gmail_query target_mimes msg_count total
               message msg_id st Hid).
    rewrite message_body_run, extract_stage_run, Hread.
    rewrite add_log_add_log. reflexivity.
  - intros e He. unfold read_message. now rewrite He.
  - intros m Hm Hp. unfold read_message. rewrite Hm. simpl. now rewrite Hp.
  - intros m pd Hm Hp Hh. unfold read_message. rewrite Hm. simpl.
    rewrite Hp. simpl. now rewrite Hh.
Qed.

(** The theorem at the sample message [m6], whose payload has no
    headers. *)
Lemma unreadable_message_dropped_witness :
  process_message Sample.gmail Sample.query Sample.mimes 1 1
    (Sample.candidate "m6") empty_state
  = (Ok tt,
     mk_state
       [LogProcessing 1 1 (PStr "m6");
        LogUnexpected (PStr "m6") (KeyError "headers")]
       []).
Proof.
  exact (proj1 (unreadable_message_dropped Sample.gmail Sample.query
                  Sample.mimes 1 1 (Sample.candidate "m6") (PStr "m6")
                  empty_state eq_refl)
           (KeyError "headers") eq_refl).
Defined.

(** X9: the identifier of a candidate is read outside the [try] (line
    135): a candidate without one ends the run with the exception of that
    line.  The messages before it are processed as usual; for the candidate
    itself and for every message after it nothing is logged and nothing is
    pushed. *)
Theorem candidate_without_id_aborts (c : collaborators) (gmail_query : pyval)
  (target_mimes : list pystr) (before after : list pyval)
  (message : pyval) (e : exn) (st : state) :
  Forall has_id before ->
  subscript message "id" = Raise e ->
  process_messages c gmail_query target_mimes (before ++ message :: after) st
  = (Raise e,
     mk_state
       (log st
        ++ run_log c gmail_query target_mimes
             (List.length (before ++ message :: after)) 1 before)
       (dataset st
        ++ flat_map (message_records c gmail_query target_mimes) before)).
Proof.
  intros Hb Hid. unfold process_messages.
  rewrite process_from_app.
  rewrite (process_from_run c gmail_query target_mimes _ 1 before st Hb).
  simpl process_from. unfold bind at 1. unfold process_message.
  unfold bind at 1. unfold lift at 1. now rewrite Hid.
Qed.

(** The theorem at a candidate list whose second entry has no ['id']: the
    record of [m1] is kept, [m3] is never processed. *)
Lemma candidate_without_id_aborts_witness :
  process_messages Sample.gmail Sample.query Sample.mimes
    [Sample.candidate "m1";
     PDict [(str_of_string "threadId", PStr "t2")];
     Sample.candidate "m3"] empty_state
  = (Raise (KeyError "id"),
     mk_state
       [LogProcessing 1 3 (PStr "m1");
        LogFoundAttachment (PStr "rate.pdf") (PStr Sample.pdf);
        LogExtracted 20;
        LogPushed (PStr "m1")]
       [mk_record (PStr "m1") (PStr "Rate Confirmation for order #1")
          (PStr "No Date") (PStr "rate.pdf") Sample.query Sample.mimes
          (str_of_string "Rate Confirmation 42")]).
Proof.
  refine (candidate_without_id_aborts Sample.gmail Sample.query Sample.mimes
            [Sample.candidate "m1"] [Sample.candidate "m3"]
            (PDict [(str_of_string "threadId", PStr "t2")])
            (KeyError "id") empty_state _ eq_refl).
  repeat constructor. eexists. reflexivity.
Defined.

(** X10: what the loop puts into the dataset: it only appends, and what
    it appends is, candidate by candidate in the order of the list, the
    records of that candidate: at most one, carrying the identifier of that
    candidate, the query and the allow-list of the run, and a non-empty
    text. *)
Theorem dataset_invariant (c : collaborators) (gmail_query : pyval)
  (target_mimes : list pystr) (messages : list pyval) (st : state) :
  Forall has_id messages ->
  exists per_candidate,
    per_candidate = map (message_records c gmail_query target_mimes) messages
    /\ dataset (snd (process_messages c gmail_query target_mimes messages st))
       = dataset st ++ List.concat per_candidate
    /\ Forall2 (fun message records =>
                  List.length records <= 1
                  /\ Forall (fun r =>
                               subscript message "id" = Ok (messageId r)
                               /\ gmailQueryUsed r = gmail_query
                               /\ targetMimes r = target_mimes
                               /\ attachmentContentText r <> []) records)
         messages per_candidate.
Proof.
  intros Hids. eexists. split; [reflexivity|]. split.
  - unfold process_messages.
    rewrite (process_from_run c gmail_query target_mimes _ 1 messages st Hids).
    simpl snd. simpl dataset. now rewrite flat_map_concat_map.
  - induction Hids as [|message rest [msg_id Hid] _ IH]; simpl;
      constructor; [|exact IH].
    rewrite (message_records_emitted c gmail_query target_mimes message
               msg_id Hid).
    destruct (emitted_cases c gmail_query target_mimes msg_id)
      as [E | (s & d & fname & text & _ & Hne & _ & E)]; rewrite E; simpl.
    + split; [apply Nat.le_0_l|constructor].
    + split; [apply le_n|]. constructor; [|constructor].
      simpl. repeat split; assumption.
Qed.

(** The theorem at the three messages of the sample mailbox: one record
    for [m1], none for [m2], one for [m3]. *)
Lemma dataset_invariant_witness :
  exists r1 r3,
    dataset (snd (process_messages Sample.gmail Sample.query Sample.mimes
                    [Sample.candidate "m1"; Sample.candidate "m2";
                     Sample.candidate "m3"] empty_state))
    = List.concat [[r1]; []; [r3]]
    /\ messageId r1 = PStr "m1" /\ messageId r3 = PStr "m3".
Proof.
  destruct (dataset_invariant Sample.gmail Sample.query Sample.mimes
              [Sample.candidate "m1"; Sample.candidate "m2";
               Sample.candidate "m3"] empty_state)
    as (per & Hper & Hds & _).
  - repeat constructor; eexists; reflexivity.
  - rewrite Hds, Hper. do 2 eexists. split; [reflexivity|].
    split; reflexivity.
Defined.

(** ** The sink and the PDF path *)

(** X11: a refusal of the dataset is a failure of the message: when the
    extraction step has produced a non-empty text and [Actor.push_data]
    raises, the exception reaches the handler of line 204, which logs it
    with the message identifier; no record is stored, "Pushed data" is not
    logged, and the iteration returns normally. *)
Theorem push_failure_drops_message (c : collaborators) (gmail_query : pyval)
  (target_mimes : list pystr) (msg_count total : nat)
  (message msg_id s d fname : pyval) (text : pystr) (e : exn) (st : state) :
  subscript message "id" = Ok msg_id ->
  extraction c target_mimes msg_id = Ok (s, d, (fname, Some text)) ->
  text <> [] ->
  push_data c (mk_record msg_id s d fname gmail_query target_mimes text)
  = Raise e ->
  exists middle,
    process_message c gmail_query target_mimes msg_count total message st
    = (Ok tt,
       mk_state
         (log st ++ LogProcessing msg_count total msg_id
                    :: middle ++ [LogUnexpected msg_id e])
         (dataset st))
    /\ ~ In (LogPushed msg_id) middle.
Proof.
  intros Hid Hx Hne Hpush.
  exists (log (snd (extract_stage c target_mimes msg_id empty_state))).
  split.
  - rewrite (process_message_run c gmail_query target_mimes msg_count total
               message msg_id st Hid).
    rewrite message_body_run, extract_stage_frame.
    unfold extraction in Hx. rewrite Hx. rewrite store_result_run.
    destruct text as [|ch text]; [congruence|].
    simpl text_truthy. cbv iota. simpl the_text. rewrite Hpush.
    rewrite !add_log_add_log. unfold add_log. simpl.
    reflexivity.
  - rewrite extract_stage_run.
    destruct (read_message c target_mimes msg_id) as [[[s' d'] tas]|e'];
      [|intros []].
    destruct tas as [|part others]; [intros []|].
    destruct part as [| | | | |pd]; try (intros []).
    destruct (attachment_id_of (PDict pd)) as [att_id|e'] eqn:Hatt.
    + rewrite (extract_attachment_run c msg_id pd others att_id empty_state
                 Hatt).
      cbv zeta.
      pose proof (get_attachment_data_cases c msg_id att_id) as E.
      assert (~ In (LogPushed msg_id) (fetch_log c msg_id att_id)) as Hfl.
      { destruct (attachments_get c msg_id att_id) as [[| | | | |ad]|e'].
        1-5: injection E as _ ->; intros [].
        - destruct (truthy (get_or_none "data" ad)).
          + destruct (get_or_none "data" ad);
              try (injection E as _ ->; intros []).
            destruct (urlsafe_b64decode c s0) as [b|e'].
            * injection E as _ ->. intros [].
            * destruct e'; injection E as _ ->; simpl; intuition discriminate.
          + injection E as _ ->. intros [].
        - destruct e'; injection E as _ ->; simpl; intuition discriminate. }
      destruct (fetched c msg_id att_id) as [b|e']; simpl.
      * destruct (bytes_truthy b && _).
        -- destruct (extract_pdf_text c (the_bytes b)); simpl;
             rewrite in_app_iff; simpl; intuition discriminate.
        -- destruct (bytes_truthy b); simpl;
             [rewrite in_app_iff; simpl|]; intuition discriminate.
      * intuition discriminate.
    + unfold extract_attachment, bind, lift.
      unfold attachment_id_of in Hatt.
      destruct (subscript (PDict pd) "body") as [body|e'']; [|intros []].
      simpl rbind in Hatt. rewrite Hatt. intros [].
Qed.

(** The theorem at the sample message [m1] with a dataset that refuses
    every record. *)
Lemma push_failure_drops_message_witness :
  process_message Sample.gmail_full_dataset Sample.query Sample.mimes 1 1
    (Sample.candidate "m1") empty_state
  = (Ok tt,
     mk_state
       [LogProcessing 1 1 (PStr "m1");
        LogFoundAttachment (PStr "rate.pdf") (PStr Sample.pdf);
        LogExtracted 20;
        LogUnexpected (PStr "m1") (OtherException "ApifyApiError")]
       []).
Proof.
  destruct (push_failure_drops_message Sample.gmail_full_dataset Sample.query
              Sample.mimes 1 1 (Sample.candidate "m1") (PStr "m1")
              (PStr "Rate Confirmation for order #1") (PStr "No Date")
              (PStr "rate.pdf") (str_of_string "Rate Confirmation 42")
              (OtherException "ApifyApiError") empty_state
              eq_refl eq_refl)
    as (middle & Hrun & _).
  - discriminate.
  - reflexivity.
  - reflexivity.
Defined.

(** X12: the PDF path: when the first target attachment is declared
    ['application/pdf'], its bytes are fetched and pdfminer extracts a text
    that is not white space only, the record carries the trimmed text and
    the part's file name, and the log line of line 171 gives the length of
    the trimmed text in characters. *)
Theorem pdf_text_stored (c : collaborators) (gmail_query : pyval)
  (target_mimes : list pystr) (msg_count total : nat)
  (message msg_id s d : pyval) (pd : pydict) (others : list pyval)
  (att_id : pyval) (payload : bytes) (raw : pystr) (st : state) :
  subscript message "id" = Ok msg_id ->
  read_message c target_mimes msg_id = Ok (s, d, PDict pd :: others) ->
  attachment_id_of (PDict pd) = Ok att_id ->
  fetched c msg_id att_id = Ok (Some payload) ->
  payload <> [] ->
  is_pdf (get_or_none "mimeType" pd) = true ->
  extract_text_to_fp c payload = Ok raw ->
  strip raw <> [] ->
  push_data c
    (mk_record msg_id s d (filename_of pd) gmail_query target_mimes
       (strip raw))
  = Ok tt ->
  process_message c gmail_query target_mimes msg_count total message st
  = (Ok tt,
     mk_state
       (log st
        ++ [LogProcessing msg_count total msg_id;
            LogFoundAttachment (filename_of pd) (get_or_none "mimeType" pd);
            LogExtracted (List.length (strip raw));
            LogPushed msg_id])
       (dataset st
        ++ [mk_record msg_id s d (filename_of pd) gmail_query target_mimes
              (strip raw)])).
Proof.
  intros Hid Hread Hatt Hfetch Hne Hpdf Hext Hstrip Hpush.
  assert (bytes_truthy (Some payload) = true) as Ht
      by (destruct payload; [congruence|reflexivity]).
  rewrite (process_message_first c gmail_query target_mimes msg_count total
             message msg_id s d pd others att_id st Hid Hread Hatt).
  cbv zeta. rewrite Hfetch, Ht, Hpdf. simpl andb. cbv iota.
  simpl the_bytes. unfold extract_pdf_text. rewrite Hext. simpl rbind.
  rewrite (fetched_Some_log c msg_id att_id payload Hfetch).
  rewrite (finish_pushed c gmail_query target_mimes msg_id s d
             (filename_of pd) (strip raw) _ Hstrip Hpush).
  unfold add_log. simpl. rewrite <- !app_assoc. reflexivity.
Qed.

(** The theorem at the sample message [m1]. *)
Lemma pdf_text_stored_witness :
  process_message Sample.gmail Sample.query Sample.mimes 1 1
    (Sample.candidate "m1") empty_state
  = (Ok tt,
     mk_state
       [LogProcessing 1 1 (PStr "m1");
        LogFoundAttachment (PStr "rate.pdf") (PStr Sample.pdf);
        LogExtracted 20;
        LogPushed (PStr "m1")]
       [mk_record (PStr "m1") (PStr "Rate Confirmation for order #1")
          (PStr "No Date") (PStr "rate.pdf") Sample.query Sample.mimes
          (str_of_string "Rate Confirmation 42")]).
Proof.
  refine (pdf_text_stored Sample.gmail Sample.query Sample.mimes 1 1
            (Sample.candidate "m1") (PStr "m1") _ _ _ _ (PStr "att-1")
            [Byte.x25; Byte.x50; Byte.x44; Byte.x46]
            ([32; 10]%N ++ str_of_string "Rate Confirmation 42" ++ [10]%N)
            empty_state eq_refl eq_refl eq_refl eq_refl _ eq_refl eq_refl _
            eq_refl); discriminate.
Defined.

(** ** The start of main *)

(** X13: the loop is entered only when everything before it went well:
    the input is a dict with true credentials, which load and build a
    service; the query and the allow-list are those of the input, or the
    defaults when the input has no such key; the allow-list joins to a
    string; the search answered with a dict whose ['messages'] is true.
    The log then has exactly the five lines of that path. *)
Theorem loop_entered_only_when_ready (s : startup) (l : list startup_line)
  (gmail_query target_mimes messages : pyval) :
  start s = (l, Ok (EnterLoop gmail_query target_mimes messages)) ->
  exists d creds response joined n,
    get_input s = PDict d
    /\ dict_get "gmail_credentials.json" d = Some creds
    /\ truthy creds = true
    /\ gmail_query = get_or "gmailQuery" (PStr DEFAULT_GMAIL_QUERY) d
    /\ target_mimes = get_or "attachmentMimeTypes" DEFAULT_MIME_TYPES d
    /\ py_join ", " target_mimes = Ok joined
    /\ load_credentials s creds = Ok tt
    /\ build s creds = Ok tt
    /\ messages_list s creds gmail_query = Ok (PDict response)
    /\ dict_get "messages" response = Some messages
    /\ truthy messages = true
    /\ py_len messages = Ok n
    /\ l = [ActorStarted; UsingQuery gmail_query; TargetingMimes joined;
            ServiceReady; FoundEmails n].
Proof.
  unfold start. intros H.
  destruct (truthy (get_input s)) eqn:Hin.
  - destruct (get_input s) as [| | | | |d] eqn:Hd; try discriminate H.
    unfold get_or_none in H.
    destruct (dict_get "gmail_credentials.json" d) as [creds|] eqn:Hc;
      [|discriminate H].
    destruct (truthy creds) eqn:Htc; [|discriminate H]. simpl negb in H.
    cbv iota zeta in H.
    destruct (py_join ", " _) as [joined|e] eqn:Hj; [|discriminate H].
    destruct (load_credentials s creds) as [[]|e] eqn:Hl; [|discriminate H].
    destruct (build s creds) as [[]|e] eqn:Hb; [|discriminate H].
    destruct (messages_list s creds _) as [response|e] eqn:Hs.
    + destruct response as [| | | | |r]; try discriminate H.
      remember (get_or "messages" (PList []) r) as ms eqn:Hms.
      destruct (py_len ms) as [n|e] eqn:Hn; [|discriminate H].
      destruct (truthy ms) eqn:Htm; [|discriminate H].
      simpl negb in H. cbv iota in H.
      injection H as <- <- <- <-.
      assert (dict_get "messages" r = Some ms) as Hm.
      { unfold get_or in Hms. destruct (dict_get "messages" r) as [v|].
        - now subst v.
        - subst ms. discriminate Htm. }
      exists d, creds, r, joined, n. repeat split; assumption.
    + destruct (is_HttpError e); discriminate H.
  - discriminate H.
Qed.

(** The theorem at the sample input, which has no allow-list, with a search
    that finds two messages. *)
Lemma loop_entered_only_when_ready_witness :
  start (Sample.startup_with Sample.actor_input
           (Ok (Sample.search_response
                  [Sample.candidate "m1"; Sample.candidate "m2"])))
  = ([ActorStarted; UsingQuery (PStr "has:attachment");
      TargetingMimes (str_of_string "application/pdf");
      ServiceReady; FoundEmails 2],
     Ok (EnterLoop (PStr "has:attachment")
           (PList [PStr "application/pdf"])
           (PList [Sample.candidate "m1"; Sample.candidate "m2"]))).
Proof.
  destruct (loop_entered_only_when_ready
              (Sample.startup_with Sample.actor_input
                 (Ok (Sample.search_response
                        [Sample.candidate "m1"; Sample.candidate "m2"])))
              [ActorStarted; UsingQuery (PStr "has:attachment");
               TargetingMimes (str_of_string "application/pdf");
               ServiceReady; FoundEmails 2]
              (PStr "has:attachment") (PList [PStr "application/pdf"])
              (PList [Sample.candidate "m1"; Sample.candidate "m2"])
              eq_refl)
    as (d & creds & response & joined & n & _).
  reflexivity.
Defined.

(** X14: a search without result is not an error: when the answer of the
    search has no ['messages'] key, or an empty list under it, [main] logs
    that it found 0 emails and that none matched, and returns without
    entering the loop. *)
Theorem no_candidates_returns (s : startup) (d response : pydict)
  (creds : pyval) (joined : pystr) :
  get_input s = PDict d ->
  dict_get "gmail_credentials.json" d = Some creds ->
  truthy creds = true ->
  py_join ", " (get_or "attachmentMimeTypes" DEFAULT_MIME_TYPES d)
  = Ok joined ->
  load_credentials s creds = Ok tt ->
  build s creds = Ok tt ->
  messages_list s creds (get_or "gmailQuery" (PStr DEFAULT_GMAIL_QUERY) d)
  = Ok (PDict response) ->
  dict_get "messages" response = None
  \/ dict_get "messages" response = Some (PList []) ->
  start s
  = ([ActorStarted;
      UsingQuery (get_or "gmailQuery" (PStr DEFAULT_GMAIL_QUERY) d);
      TargetingMimes joined; ServiceReady; FoundEmails 0;
      NoMatchingEmails],
     Ok Return).
Proof.
  intros Hd Hc Htc Hj Hl Hb Hs Hm. unfold start. rewrite Hd.
  assert (truthy (PDict d) = true) as ->
      by (destruct d; [discriminate Hc|reflexivity]).
  unfold get_or_none. rewrite Hc, Htc. simpl negb. cbv iota zeta.
  rewrite Hj, Hl, Hb, Hs.
  assert (get_or "messages" (PList []) response = PList []) as ->
      by (unfold get_or; destruct Hm as [-> | ->]; reflexivity).
  reflexivity.
Qed.

(** The theorem at a search answer that has only a result size. *)
Lemma no_candidates_returns_witness :
  start (Sample.startup_with Sample.actor_input
           (Ok (PDict [(str_of_string "resultSizeEstimate", PInt 0)])))
  = ([ActorStarted; UsingQuery (PStr "has:attachment");
      TargetingMimes (str_of_string "application/pdf");
      ServiceReady; FoundEmails 0; NoMatchingEmails],
     Ok Return).
Proof.
  refine (no_candidates_returns
            (Sample.startup_with Sample.actor_input
               (Ok (PDict [(str_of_string "resultSizeEstimate", PInt 0)])))
            _ [(str_of_string "resultSizeEstimate", PInt 0)]
            (PStr "{...}") (str_of_string "application/pdf")
            eq_refl eq_refl eq_refl eq_refl eq_refl eq_refl eq_refl _).
  now left.
Defined.

(** X15: which failures of the start [main] handles and which escape from
    it.  Handled, with an error line and a return: missing or empty
    credentials (nothing else is consulted), credentials that do not load,
    a service that does not build, an [HttpError] of the search.  Escaping
    as an exception: an allow-list that is not an iterable of strings
    ([TypeError] of line 96, before the credentials are loaded), and any
    exception of the search that is not an [HttpError]. *)
Theorem start_failures (s : startup) :
  (truthy (get_input s) = false
   \/ (exists d, get_input s = PDict d
                 /\ truthy (get_or_none "gmail_credentials.json" d) = false)
   -> start s = ([ActorStarted; MissingCredentials], Ok Return))
  /\ (forall d creds,
        get_input s = PDict d ->
        dict_get "gmail_credentials.json" d = Some creds ->
        truthy creds = true ->
        let gmail_query :=
          get_or "gmailQuery" (PStr DEFAULT_GMAIL_QUERY) d in
        let target_mimes :=
          get_or "attachmentMimeTypes" DEFAULT_MIME_TYPES d in
        (forall e, py_join ", " target_mimes = Raise e ->
                   start s = ([ActorStarted; UsingQuery gmail_query], Raise e))
        /\ (forall joined,
              py_join ", " target_mimes = Ok joined ->
              let l := [ActorStarted; UsingQuery gmail_query;
                        TargetingMimes joined] in
              (forall e, load_credentials s creds = Raise e ->
                         start s = (l ++ [CredentialsError e], Ok Return))
              /\ (forall e, load_credentials s creds = Ok tt ->
                            build s creds = Raise e ->
                            start s = (l ++ [BuildFailed e], Ok Return))
              /\ (forall e, load_credentials s creds = Ok tt ->
                            build s creds = Ok tt ->
                            messages_list s creds gmail_query = Raise e ->
                            start s
                            = if is_HttpError e
                              then (l ++ [ServiceReady; SearchFailed e],
                                    Ok Return)
                              else (l ++ [ServiceReady], Raise e)))).
Proof.
  split.
  - intros [Hf | (d & Hd & Hc)]; unfold start.
    + now rewrite Hf.
    + rewrite Hd. destruct d as [|kv d]; [reflexivity|].
      simpl truthy. cbv iota. now rewrite Hc.
  - intros d creds Hd Hc Htc gmail_query target_mimes.
    split.
    + intros e Hj. unfold start.
      rewrite Hd. destruct d as [|kv d]; [discriminate Hc|].
      simpl truthy. cbv iota. unfold get_or_none. rewrite Hc, Htc.
      simpl negb. cbv iota zeta. fold target_mimes. now rewrite Hj.
    + intros joined Hj l.
      assert (start s =
              match load_credentials s creds with
              | Raise e => (l ++ [CredentialsError e], Ok Return)
              | Ok _ =>
                  match build s creds with
                  | Raise e => (l ++ [BuildFailed e], Ok Return)
                  | Ok _ =>
                      match messages_list s creds gmail_query with
                      | Raise e =>
                          if is_HttpError e
                          then ((l ++ [ServiceReady]) ++ [SearchFailed e],
                                Ok Return)
                          else (l ++ [ServiceReady], Raise e)
                      | Ok (PDict response) =>
                          let messages :=
                            get_or "messages" (PList []) response in
                          match py_len messages with
                          | Raise e => (l ++ [ServiceReady], Raise e)
                          | Ok n =>
                              if negb (truthy messages) then
                                ((l ++ [ServiceReady])
                                 ++ [FoundEmails n; NoMatchingEmails],
                                 Ok Return)
                              else
                                ((l ++ [ServiceReady]) ++ [FoundEmails n],
                                 Ok (EnterLoop gmail_query target_mimes
                                       messages))
                          end
                      | Ok _ => (l ++ [ServiceReady], Raise AttributeError)
                      end
                  end
              end) as Hstart.
      { unfold start. rewrite Hd. destruct d as [|kv d]; [discriminate Hc|].
        simpl truthy. cbv iota. unfold get_or_none. rewrite Hc, Htc.
        simpl negb. cbv iota zeta. fold target_mimes. rewrite Hj.
        reflexivity. }
      split; [|split].
      * intros e Hl. now rewrite Hstart, Hl.
      * intros e Hl Hb. now rewrite Hstart, Hl, Hb.
      * intros e Hl Hb Hs. rewrite Hstart, Hl, Hb, Hs.
        destruct (is_HttpError e); reflexivity.
Qed.

(** The start on an input whose allow-list is [null], and on an input
    without credentials. *)
Example start_samples :
  start (Sample.startup_with
           (PDict [(str_of_string "gmail_credentials.json", PStr "{...}");
                   (str_of_string "attachmentMimeTypes", PNone)])
           (Ok (Sample.search_response [Sample.candidate "m1"])))
  = ([ActorStarted; UsingQuery (PStr DEFAULT_GMAIL_QUERY)], Raise TypeError)
  /\ start (Sample.startup_with PNone
              (Ok (Sample.search_response [Sample.candidate "m1"])))
     = ([ActorStarted; MissingCredentials], Ok Return).
Proof. split; reflexivity. Qed.
